(** * Inference pipeline notebook (SparkML on Glue, BlazingText, SageMaker)

    A shallow embedding of the code cells of
    [inference_pipeline_sparkml_blazingtext_dbpedia.ipynb].  The notebook is
    a straight-line script over remote services: every call into S3, Glue
    or SageMaker is recorded as an [event] in a trace, the answers of the
    services come from a [world], and the Python globals are threaded from
    cell to cell as ordinary values.  Shell escapes ([!wget ...]) are not
    Python and are left out. *)

From stdpp Require Import gmap strings list fin_maps.
From Stdlib Require Import ZArith Ascii.

Set Warnings "-register-all".

Local Open Scope string_scope.
Local Open Scope list_scope.

(** ** Python builtins used by the notebook *)

Module Py.

(** The exceptions the notebook can meet.  A botocore [ClientError]
    carries the parsed error response, a dict of dicts. *)
Inductive exn :=
| ClientError (response : gmap string (gmap string string))
| KeyError (key : string)
| IndexError
| ValueError
| OtherError (name : string).

(** [str.format] restricted to what the notebook writes: literal text and
    automatically numbered [{}] fields.  Running out of arguments is
    Python's [IndexError] and a single brace its [ValueError]; doubled
    braces, numbered or named fields and format specs are outside this
    fragment and are reported as [ValueError] too.  Surplus arguments are
    ignored, as in Python. *)
Fixpoint format (template : string) (args : list string) : exn + string :=
  match template with
  | EmptyString => inr EmptyString
  | String "{" (String "}" rest) =>
      match args with
      | a :: args' =>
          match format rest args' with
          | inr s => inr (a +:+ s)
          | inl e => inl e
          end
      | [] => inl IndexError
      end
  | String "{" _ => inl ValueError
  | String "}" _ => inl ValueError
  | String c rest =>
      match format rest args with
      | inr s => inr (String c s)
      | inl e => inl e
      end
  end.

(** [c in s] for one character. *)
Fixpoint contains (c : ascii) (s : string) : bool :=
  match s with
  | EmptyString => false
  | String c' rest => Ascii.eqb c c' || contains c rest
  end.

(** [s[s.rfind('/') + 1:]]: the text after the last slash, the whole
    string when there is none ([rfind] answers [-1]). *)
Fixpoint after_last_slash (s : string) : string :=
  match s with
  | EmptyString => EmptyString
  | String c rest =>
      if contains "/" rest then after_last_slash rest
      else if Ascii.eqb c "/" then rest else s
  end.

(** [x in t] for a tuple of strings: a left-to-right scan with [==]. *)
Definition in_tuple (x : string) (t : list string) : bool :=
  existsb (String.eqb x) t.

(** The values handed to [json.dumps].  A dict is kept as the list of
    its items in iteration order; for a dict literal that is taken to be
    the order of writing.  The notebook's kernel orders a dict by its own
    hashing, which can permute the keys of the text [dumps] writes and
    nothing else; no statement below depends on that order. *)
Inductive json :=
| JStr (s : string)
| JList (items : list json)
| JDict (items : list (string * json)).

Definition dquote : ascii := ascii_of_nat 34.
Definition backslash : ascii := ascii_of_nat 92.

Definition hex_digit (n : nat) : ascii :=
  if (n <? 10)%nat then ascii_of_nat (48 + n) else ascii_of_nat (87 + n).

(** One character of a string literal as [json.dumps] writes it with
    [ensure_ascii]: only the printable ASCII range passes unchanged.  A
    string is read as a sequence of code points below 256. *)
Definition escape_char (c : ascii) : string :=
  let n := nat_of_ascii c in
  if Ascii.eqb c dquote then String backslash (String dquote EmptyString)
  else if Ascii.eqb c backslash then String backslash (String backslash EmptyString)
  else if (n =? 10)%nat then String backslash "n"
  else if (n =? 13)%nat then String backslash "r"
  else if (n =? 9)%nat then String backslash "t"
  else if (n =? 8)%nat then String backslash "b"
  else if (n =? 12)%nat then String backslash "f"
  else if ((32 <=? n) && (n <=? 126))%nat then String c EmptyString
  else String backslash
         (String "u" (String "0" (String "0"
            (String (hex_digit (n / 16)%nat) (String (hex_digit (n mod 16)%nat) EmptyString))))).

Fixpoint escape (s : string) : string :=
  match s with
  | EmptyString => EmptyString
  | String c rest => escape_char c +:+ escape rest
  end.

Definition quoted (s : string) : string :=
  String dquote (escape s +:+ String dquote EmptyString).

(** [sep.join(parts)]. *)
Fixpoint join (sep : string) (parts : list string) : string :=
  match parts with
  | [] => EmptyString
  | [p] => p
  | p :: rest => p +:+ sep +:+ join sep rest
  end.

(** [json.dumps] with its default separators [", "] and [": "]. *)
Fixpoint dumps (v : json) : string :=
  match v with
  | JStr s => quoted s
  | JList items => "[" +:+ join ", " (map dumps items) +:+ "]"
  | JDict items =>
      "{" +:+ join ", " (map (fun kv => quoted (fst kv) +:+ ": " +:+ dumps (snd kv)) items) +:+ "}"
  end.

End Py.

(** ** The objects the notebook builds *)

(** A hyperparameter value as written in [set_hyperparameters]; a float
    keeps its source literal. *)
Inductive hyper :=
| HStr (s : string)
| HInt (n : Z)
| HBool (b : bool)
| HFloat (literal : string).

Record estimator := Estimator {
  est_image : string;
  est_role : string;
  train_instance_count : Z;
  train_instance_type : string;
  train_volume_size : Z;
  train_max_run : Z;
  input_mode : string;
  est_output_path : string;
  hyperparameters : gmap string hyper
}.

Record s3_input := S3Input {
  s3_data : string;
  distribution : string;
  s3_content_type : string;
  s3_data_type : string
}.

(** The two model classes of cell 49: [SparkMLModel(model_data, env)] and
    the generic [Model(model_data, image)]. *)
Inductive model :=
| SparkMLModel (model_data : string) (env : gmap string string)
| Model (model_data : string) (image : string).

Record pipeline_model := PipelineModel {
  pm_name : string;
  pm_role : string;
  pm_models : list model
}.

Record transformer := Transformer {
  tr_model_name : string;
  tr_instance_count : Z;
  tr_instance_type : string;
  tr_strategy : string;
  tr_assemble_with : string;
  tr_output_path : string;
  tr_base_transform_job_name : string;
  tr_accept : string
}.

Record predictor := RealTimePredictor {
  pr_endpoint : string;
  pr_serializer : string;
  pr_content_type : string;
  pr_accept : option string
}.

(** ** Calls into the services *)

Inductive event :=
| EvPrint (text : string)
| EvCreateBucket (bucket : string) (location_constraint : option string)
| EvUpload (path bucket key_prefix : string)
| EvClock
| EvCreateJob (name role script_location extra_jars extra_py_files : string)
| EvStartJobRun (job_name : string) (arguments : gmap string string)
| EvGetJobRun (job_name run_id : string)
| EvSleep (seconds : Z)
| EvFit (est : estimator) (inputs : gmap string s3_input)
| EvDeploy (pm : pipeline_model) (initial_instance_count : Z)
           (instance_type endpoint_name : string)
| EvPredict (p : predictor) (body : string)
| EvDeleteEndpoint (endpoint_name : string)
| EvTransform (t : transformer) (data content_type split_type : string)
| EvTransformWait (t : transformer).

(** What the outside answers.  Only [create_bucket] is given a way to
    fail, because it is the only call the notebook wraps in [try]; the
    Glue status answers are indexed by the number of earlier
    [get_job_run] calls and the clock by the number of earlier readings. *)
Record world := World {
  account : string;
  region : string;
  execution_role : string;
  create_bucket_raises : option Py.exn;
  gmtime : nat -> string;
  new_job_run_id : string;
  job_run_state : nat -> string;
  get_image_uri : string -> string -> string -> string;
  fitted_model_data : string;
  invoke_endpoint : predictor -> string -> string
}.

(** The state the script drives: the calls made so far, how many status
    answers and clock readings were consumed, and the hosting service's
    registry of models and endpoints. *)
Record machine := Machine {
  trace : list event;
  polls : nat;
  clock_reads : nat;
  hosted_models : gmap string (list model);
  hosted_endpoints : gmap string string
}.

Definition start : machine := Machine [] 0 0 ∅ ∅.

(** ** A state and exception monad for the cells *)

Inductive outcome (A : Type) :=
| Done (a : A) (m : machine)
| Raised (e : Py.exn) (m : machine)
| Running (m : machine).
Arguments Done {A} a m.
Arguments Raised {A} e m.
Arguments Running {A} m.

Definition M (A : Type) : Type := machine -> outcome A.

#[global] Instance M_ret : MRet M := fun A a m => Done a m.

#[global] Instance M_bind : MBind M := fun A B k c m =>
  match c m with
  | Done a m' => k a m'
  | Raised e m' => Raised e m'
  | Running m' => Running m'
  end.

Definition raise {A} (e : Py.exn) : M A := fun m => Raised e m.

(** [try: body / except ClientError as e: handler e]: any other exception
    passes through. *)
Definition try_except_ClientError {A} (body : M A)
    (handler : gmap string (gmap string string) -> M A) : M A :=
  fun m =>
    match body m with
    | Raised (Py.ClientError response) m' => handler response m'
    | r => r
    end.

Definition emit (e : event) : M unit :=
  fun m => Done tt (Machine (trace m ++ [e]) (polls m) (clock_reads m)
                            (hosted_models m) (hosted_endpoints m)).

Definition print (text : string) : M unit := emit (EvPrint text).

(** [d[k]] on a dict: [KeyError] when the key is missing. *)
Definition subscript {V} (d : gmap string V) (k : string) : M V :=
  match d !! k with
  | Some v => mret v
  | None => raise (Py.KeyError k)
  end.

Definition format (template : string) (args : list string) : M string :=
  match Py.format template args with
  | inr s => mret s
  | inl e => raise e
  end.

(** Constants imported from [sagemaker.content_types]. *)
Definition CONTENT_TYPE_CSV : string := "text/csv".
Definition CONTENT_TYPE_JSON : string := "application/json".

(** The globals of cell 25. *)
Record locations := Locations {
  timestamp_prefix : string;
  s3_input_bucket : string;
  s3_input_key_prefix : string;
  s3_output_bucket : string;
  s3_output_key_prefix : string;
  s3_model_bucket : string;
  s3_model_key_prefix : string
}.

(** The tuple the poll loop tests membership in. *)
Definition terminal_states : list string := ["FAILED"; "SUCCEEDED"; "STOPPED"].

(** ** The cells *)

Section Cells.

Variable w : world.

(** *** Service calls *)

Definition create_bucket (bucket : string) (location_constraint : option string)
  : M unit :=
  emit (EvCreateBucket bucket location_constraint) ;;
  match create_bucket_raises w with
  | Some e => raise e
  | None => mret tt
  end.

(** [sess.upload_data] answers the S3 URI of the uploaded file. *)
Definition upload_data (path bucket key_prefix : string) : M string :=
  emit (EvUpload path bucket key_prefix) ;;
  mret ("s3://" +:+ bucket +:+ "/" +:+ key_prefix +:+ "/" +:+ path).

(** [strftime("%Y-%m-%d-%H-%M-%S", gmtime())]. *)
Definition strftime_gmtime : M string :=
  fun m => Done (gmtime w (clock_reads m))
                (Machine (trace m ++ [EvClock]) (polls m) (S (clock_reads m))
                         (hosted_models m) (hosted_endpoints m)).

(** [glue_client.get_job_run(...)['JobRun']['JobRunState']]. *)
Definition get_job_run (job_name run_id : string) : M string :=
  fun m => Done (job_run_state w (polls m))
                (Machine (trace m ++ [EvGetJobRun job_name run_id]) (S (polls m))
                         (clock_reads m) (hosted_models m) (hosted_endpoints m)).

Definition sleep (seconds : Z) : M unit := emit (EvSleep seconds).

(** *** Cell 8: session and role *)
Definition cell8 : M string :=
  let role := execution_role w in
  print (Py.after_last_slash role) ;;
  mret role.

(** *** Cell 14: bucket creation and upload of the dataset *)
Definition cell14 : M string :=
  let account := account w in
  let region := region w in
  default_bucket ← format "aws-glue-{}-{}" [account; region];
  try_except_ClientError
    (if String.eqb region "us-east-1"
     then create_bucket default_bucket None
     else create_bucket default_bucket (Some region))
    (fun response =>
       error ← subscript response "Error";
       error_code ← subscript error "Code";
       error ← subscript response "Error";
       message ← subscript error "Message";
       if String.eqb error_code "BucketAlreadyOwnedByYou"
       then print "A bucket with the same name already exists in your account - using the same bucket."
       else mret tt) ;;
  upload_data "train.csv" default_bucket "input/dbpedia" ;;
  upload_data "test.csv" default_bucket "input/dbpedia" ;;
  mret default_bucket.

(** *** Cells 19 and 23: script and dependencies *)
Definition cell19 (default_bucket : string) : M string :=
  upload_data "dbpedia_processing.py" default_bucket "codes".

Definition cell23 (default_bucket : string) : M (string * string) :=
  python_dep_location ← upload_data "python.zip" default_bucket "dependencies/python";
  jar_dep_location ← upload_data "mleap_spark_assembly.jar" default_bucket "dependencies/jar";
  mret (python_dep_location, jar_dep_location).

(** *** Cell 25: the timestamp prefix and the storage locations *)
Definition cell25 (default_bucket : string) : M locations :=
  timestamp_prefix ← strftime_gmtime;
  let s3_input_bucket := default_bucket in
  let s3_input_key_prefix := "input/dbpedia" in
  let s3_output_bucket := default_bucket in
  let s3_output_key_prefix := timestamp_prefix +:+ "/dbpedia" in
  let s3_model_bucket := default_bucket in
  let s3_model_key_prefix := s3_output_key_prefix +:+ "/mleap" in
  mret (Locations timestamp_prefix s3_input_bucket s3_input_key_prefix
          s3_output_bucket s3_output_key_prefix
          s3_model_bucket s3_model_key_prefix).

(** *** Cell 28: the Glue job definition *)
Definition cell28 (role script_location jar_dep_location python_dep_location : string)
    (loc : locations) : M string :=
  let job_name := "sparkml-dbpedia-" +:+ timestamp_prefix loc in
  emit (EvCreateJob job_name role script_location jar_dep_location python_dep_location) ;;
  let glue_job_name := job_name in
  print glue_job_name ;;
  mret job_name.

(** *** Cell 30: the job run and its arguments *)
Definition job_arguments (loc : locations) : gmap string string :=
  <["--S3_INPUT_BUCKET" := s3_input_bucket loc]>
  (<["--S3_INPUT_KEY_PREFIX" := s3_input_key_prefix loc]>
  (<["--S3_OUTPUT_BUCKET" := s3_output_bucket loc]>
  (<["--S3_OUTPUT_KEY_PREFIX" := s3_output_key_prefix loc]>
  (<["--S3_MODEL_BUCKET" := s3_model_bucket loc]>
  (<["--S3_MODEL_KEY_PREFIX" := s3_model_key_prefix loc]> ∅))))).

Definition cell30 (job_name : string) (loc : locations) : M string :=
  emit (EvStartJobRun job_name (job_arguments loc)) ;;
  let job_run_id := new_job_run_id w in
  print job_run_id ;;
  mret job_run_id.

(** *** Cell 33: waiting for the job run

    [fuel] bounds the number of loop iterations the model follows; when
    it runs out with the loop still going the outcome is [Running]. *)
Fixpoint poll_loop (fuel : nat) (job_name job_run_id job_run_status : string)
  : M string :=
  if negb (Py.in_tuple job_run_status terminal_states) then
    match fuel with
    | O => Running
    | S fuel' =>
        job_run_status ← get_job_run job_name job_run_id;
        print job_run_status ;;
        sleep 30 ;;
        poll_loop fuel' job_name job_run_id job_run_status
    end
  else mret job_run_status.

Definition cell33 (fuel : nat) (job_name job_run_id : string) : M string :=
  job_run_status ← get_job_run job_name job_run_id;
  poll_loop fuel job_name job_run_id job_run_status.

(** *** Cell 37: the training image *)
Definition cell37 : M string :=
  let training_image := get_image_uri w (region w) "blazingtext" "latest" in
  print training_image ;;
  mret training_image.

(** *** Cell 39: estimator, hyperparameters and data channels *)
Definition bt_hyperparameters : gmap string hyper :=
  <["mode" := HStr "supervised"]>
  (<["epochs" := HInt 10]>
  (<["min_count" := HInt 2]>
  (<["learning_rate" := HFloat "0.05"]>
  (<["vector_dim" := HInt 10]>
  (<["early_stopping" := HBool true]>
  (<["patience" := HInt 4]>
  (<["min_epochs" := HInt 5]>
  (<["word_ngrams" := HInt 2]> ∅)))))))).

Record training_setup := TrainingSetup {
  s3_train_data : string;
  s3_validation_data : string;
  s3_output_location : string;
  bt_estimator : estimator;
  data_channels : gmap string s3_input
}.

Definition cell39 (role training_image : string) (loc : locations)
  : M training_setup :=
  s3_train_data ← format "s3://{}/{}/{}" [s3_output_bucket loc; s3_output_key_prefix loc; "train"];
  s3_validation_data ← format "s3://{}/{}/{}" [s3_output_bucket loc; s3_output_key_prefix loc; "validation"];
  s3_output_location ← format "s3://{}/{}/{}" [s3_output_bucket loc; s3_output_key_prefix loc; "bt_model"];
  let bt_model :=
    Estimator training_image role 1 "ml.c4.xlarge" 20 3600 "File"
              s3_output_location bt_hyperparameters in
  let train_data := S3Input s3_train_data "FullyReplicated" "text/plain" "S3Prefix" in
  let validation_data := S3Input s3_validation_data "FullyReplicated" "text/plain" "S3Prefix" in
  let data_channels := <["train" := train_data]> (<["validation" := validation_data]> ∅) in
  mret (TrainingSetup s3_train_data s3_validation_data s3_output_location
          bt_model data_channels).

(** *** Cell 41: training; afterwards [bt_model.model_data] is known *)
Definition cell41 (setup : training_setup) : M string :=
  emit (EvFit (bt_estimator setup) (data_channels setup)) ;;
  mret (fitted_model_data w).

(** *** Cell 46: the schema of the request *)
Definition schema : Py.json :=
  Py.JDict
    [ ("input", Py.JList [ Py.JDict [ ("name", Py.JStr "abstract");
                                      ("type", Py.JStr "string") ] ]);
      ("output", Py.JDict [ ("name", Py.JStr "tokenized_abstract");
                            ("type", Py.JStr "string");
                            ("struct", Py.JStr "array") ]) ].

Definition cell46 : M string :=
  let schema_json := Py.dumps schema in
  print schema_json ;;
  mret schema_json.

(** *** Cell 49: the two models and the pipeline model *)
Record pipeline_setup := PipelineSetup {
  sparkml_data : string;
  sparkml_model : model;
  bt_model : model;
  model_name : string;
  sm_model : pipeline_model
}.

Definition cell49 (role training_image bt_model_data schema_json : string)
    (loc : locations) : M pipeline_setup :=
  sparkml_data ← format "s3://{}/{}/{}" [s3_model_bucket loc; s3_model_key_prefix loc; "model.tar.gz"];
  let sparkml_model :=
    SparkMLModel sparkml_data
      (<["SAGEMAKER_SPARKML_SCHEMA" := schema_json]>
       (<["SAGEMAKER_DEFAULT_INVOCATIONS_ACCEPT" := "application/jsonlines;data=text"]> ∅)) in
  let bt_model := Model bt_model_data training_image in
  let model_name := "inference-pipeline-" +:+ timestamp_prefix loc in
  let sm_model := PipelineModel model_name role [sparkml_model; bt_model] in
  mret (PipelineSetup sparkml_data sparkml_model bt_model model_name sm_model).

(** *** Cell 51: deployment behind an endpoint

    [deploy] registers the pipeline model under its name and binds the
    new endpoint to that name. *)
Definition deploy (pm : pipeline_model) (initial_instance_count : Z)
    (instance_type endpoint_name : string) : M unit :=
  fun m =>
    Done tt (Machine
               (trace m ++ [EvDeploy pm initial_instance_count instance_type endpoint_name])
               (polls m) (clock_reads m)
               (<[pm_name pm := pm_models pm]> (hosted_models m))
               (<[endpoint_name := pm_name pm]> (hosted_endpoints m))).

Definition cell51 (sm_model : pipeline_model) (loc : locations) : M string :=
  let endpoint_name := "inference-pipeline-ep-" +:+ timestamp_prefix loc in
  deploy sm_model 1 "ml.c4.xlarge" endpoint_name ;;
  mret endpoint_name.

(** *** Cells 54 and 56: one request in CSV, one in JSON

    [csv_serializer] hands a [str] payload on unchanged;
    [json_serializer] is [json.dumps]. *)
Definition predict (p : predictor) (body : string) : M string :=
  emit (EvPredict p body) ;;
  mret (invoke_endpoint w p body).

Definition cell54 (endpoint_name : string) : M unit :=
  let payload := "Convair was an american aircraft manufacturing company which later expanded into rockets and spacecraft." in
  let predictor := RealTimePredictor endpoint_name "csv_serializer" CONTENT_TYPE_CSV
                     (Some "application/jsonlines") in
  answer ← predict predictor payload;
  print answer.

Definition cell56 (endpoint_name : string) : M unit :=
  let payload := Py.JDict [("data", Py.JList [Py.JStr "Berwick secondary college is situated in the outer melbourne metropolitan suburb of berwick ."])] in
  let predictor := RealTimePredictor endpoint_name "json_serializer" CONTENT_TYPE_JSON None in
  answer ← predict predictor (Py.dumps payload);
  print answer.

(** *** Cell 58: the endpoint is deleted, the registered model stays *)
Definition delete_endpoint (endpoint_name : string) : M unit :=
  fun m =>
    Done tt (Machine (trace m ++ [EvDeleteEndpoint endpoint_name])
               (polls m) (clock_reads m) (hosted_models m)
               (delete endpoint_name (hosted_endpoints m))).

Definition cell58 (endpoint_name : string) : M unit :=
  delete_endpoint endpoint_name.

(** *** Cells 62 and 64: the batch input and the transform job *)
Definition cell62 (default_bucket : string) : M string :=
  upload_data "batch_input_dbpedia.csv" default_bucket "batch".

Definition cell64 (default_bucket model_name : string) (loc : locations)
  : M transformer :=
  input_data_path ← format "s3://{}/{}/{}" [default_bucket; "batch"; "batch_input_dbpedia.csv"];
  output_data_path ← format "s3://{}/{}/{}" [default_bucket; "batch_output/dbpedia"; timestamp_prefix loc];
  let transformer :=
    Transformer model_name 1 "ml.m4.xlarge" "SingleRecord" "Line"
                output_data_path "serial-inference-batch" CONTENT_TYPE_CSV in
  emit (EvTransform transformer input_data_path CONTENT_TYPE_CSV "Line") ;;
  emit (EvTransformWait transformer) ;;
  mret transformer.

End Cells.

(** ** The notebook, top to bottom *)

Record globals := Globals {
  g_role : string;
  g_default_bucket : string;
  g_locations : locations;
  g_job_name : string;
  g_job_run_id : string;
  g_job_run_status : string;
  g_training : training_setup;
  g_pipeline : pipeline_setup;
  g_endpoint_name : string;
  g_transformer : transformer
}.

Section Notebook.

Variable w : world.

(** Cells 8 to 30: upload everything and start the Glue job run. *)
Definition submit_job : M (string * string * locations * string * string) :=
  role ← cell8 w;
  default_bucket ← cell14 w;
  script_location ← cell19 default_bucket;
  '(python_dep_location, jar_dep_location) ← cell23 default_bucket;
  loc ← cell25 w default_bucket;
  job_name ← cell28 role script_location jar_dep_location python_dep_location loc;
  job_run_id ← cell30 w job_name loc;
  mret (role, default_bucket, loc, job_name, job_run_id).

(** Cells 33 to 41: wait for the Glue run, then train. *)
Definition wait_then_train (fuel : nat) (role job_name job_run_id : string)
    (loc : locations) : M (string * string * training_setup * string) :=
  job_run_status ← cell33 w fuel job_name job_run_id;
  training_image ← cell37 w;
  setup ← cell39 role training_image loc;
  bt_model_data ← cell41 w setup;
  mret (job_run_status, training_image, setup, bt_model_data).

(** Cells 46 to 51: assemble the pipeline model and deploy it. *)
Definition assemble_and_deploy (role training_image bt_model_data : string)
    (loc : locations) : M (pipeline_setup * string) :=
  schema_json ← cell46;
  pipeline ← cell49 role training_image bt_model_data schema_json loc;
  endpoint_name ← cell51 (sm_model pipeline) loc;
  mret (pipeline, endpoint_name).

(** Cells 54 to 64: two requests, teardown of the endpoint, then the
    batch transform over the same model name. *)
Definition serve_and_transform (default_bucket endpoint_name : string)
    (pipeline : pipeline_setup) (loc : locations) : M transformer :=
  cell54 w endpoint_name ;;
  cell56 w endpoint_name ;;
  cell58 endpoint_name ;;
  batch_input_loc ← cell62 default_bucket;
  cell64 default_bucket (model_name pipeline) loc.

Definition notebook (fuel : nat) : M globals :=
  '(role, default_bucket, loc, job_name, job_run_id) ← submit_job;
  '(job_run_status, training_image, setup, bt_model_data) ←
    wait_then_train fuel role job_name job_run_id loc;
  '(pipeline, endpoint_name) ←
    assemble_and_deploy role training_image bt_model_data loc;
  transformer ← serve_and_transform default_bucket endpoint_name pipeline loc;
  mret (Globals role default_bucket loc job_name job_run_id job_run_status
          setup pipeline endpoint_name transformer).

End Notebook.

(** ** The services behind the calls *)

(** Modelled from the spec: the hosting service is not part of the
    repository.  A pipeline model is an ordered list of model references
    "that must be invoked in that sequence": the request goes to the first
    reference, each later one receives the output of the one before, and
    the last output is the answer.  [serve] stands for what one container
    does with one input; the result also lists the references in the order
    in which they were invoked. *)
Fixpoint invoke_in_sequence (serve : model -> string -> string)
    (stages : list model) (request : string) : list model * string :=
  match stages with
  | [] => ([], request)
  | stage :: rest =>
      let '(invoked, answer) := invoke_in_sequence serve rest (serve stage request) in
      (stage :: invoked, answer)
  end.

(** Modelled from the spec: the hosting service is not part of the
    repository.  A model is invoked through the name it is registered
    under, which is how a transform job refers to it. *)
Definition invoke_by_model_name (serve : model -> string -> string)
    (m : machine) (name request : string) : option (list model * string) :=
  stages ← hosted_models m !! name;
  Some (invoke_in_sequence serve stages request).

(** Modelled from the spec: the hosting service is not part of the
    repository.  A request to an endpoint is answered by the model the
    endpoint is bound to. *)
Definition invoke_by_endpoint (serve : model -> string -> string)
    (m : machine) (endpoint_name request : string) : option (list model * string) :=
  name ← hosted_endpoints m !! endpoint_name;
  invoke_by_model_name serve m name request.

(** Modelled from the spec: the serving container of the first stage is
    not part of the repository.  It answers in its default tabular format,
    CSV, unless the accept-type override is set in its environment. *)
Definition stage_output_encoding (env : gmap string string) : string :=
  default CONTENT_TYPE_CSV (env !! "SAGEMAKER_DEFAULT_INVOCATIONS_ACCEPT").

Definition newline : ascii := ascii_of_nat 10.

(** The lines of a text: every newline ends a line, and what follows the
    last newline is a line of its own unless it is empty. *)
Fixpoint split_lines (s : string) : list string :=
  match s with
  | EmptyString => []
  | String c rest =>
      if Ascii.eqb c newline then EmptyString :: split_lines rest
      else match split_lines rest with
           | [] => [String c EmptyString]
           | line :: more => String c line :: more
           end
  end.

(** Every part followed by a newline. *)
Fixpoint unlines (parts : list string) : string :=
  match parts with
  | [] => EmptyString
  | part :: rest => part +:+ String newline (unlines rest)
  end.

(** Modelled from the spec: the batch-transform service is not part of
    the repository.  The input file is "split line-by-line" into records
    when the split type is Line, and is one record otherwise. *)
Definition split_records (split_type content : string) : list string :=
  if String.eqb split_type "Line" then split_lines content else [content].

(** Modelled from the spec: the batch-transform service is not part of
    the repository.  With the SingleRecord strategy every record is a
    request of its own; otherwise the records travel in one request. *)
Definition payloads (strategy : string) (records : list string) : list string :=
  if String.eqb strategy "SingleRecord" then records else [unlines records].

(** Modelled from the spec: the batch-transform service is not part of
    the repository.  Assembled with Line, every answer is written out
    followed by a newline, in the order of the requests. *)
Definition assemble (assemble_with : string) (answers : list string) : string :=
  if String.eqb assemble_with "Line" then unlines answers
  else String.concat EmptyString answers.

(** Modelled from the spec: the batch-transform service is not part of
    the repository.  The output file of a transform job over an input
    file, for a model that answers one request with [invoke]. *)
Definition batch_transform (invoke : string -> string) (t : transformer)
    (split_type content : string) : string :=
  assemble (tr_assemble_with t)
    (map invoke (payloads (tr_strategy t) (split_records split_type content))).

(** ** Vocabulary of the statements *)

(** The machine [m] after the further calls [evs]. *)
Definition after (m : machine) (evs : list event) : machine :=
  Machine (trace m ++ evs) (polls m) (clock_reads m)
          (hosted_models m) (hosted_endpoints m).

(** What one pass through the body of the poll loop adds to the trace
    when it consumes the status answer number [k]. *)
Definition iteration (w : world) (job_name job_run_id : string) (k : nat)
  : list event :=
  [EvGetJobRun job_name job_run_id; EvPrint (job_run_state w k); EvSleep 30].

(** The status the loop condition tests after [k] iterations, for a loop
    entered with [first] in hand and [p] answers already consumed. *)
Definition tested (w : world) (first : string) (p k : nat) : string :=
  match k with
  | O => first
  | S j => job_run_state w (p + j)%nat
  end.

(** The sleeps of a trace, in order. *)
Definition sleeps (tr : list event) : list Z :=
  flat_map (fun e => match e with EvSleep s => [s] | _ => [] end) tr.

(** The status queries of a trace. *)
Definition queries (tr : list event) : list event :=
  List.filter (fun e => match e with EvGetJobRun _ _ => true | _ => false end) tr.

Definition bucket_name (w : world) : string :=
  "aws-glue-" +:+ account w +:+ "-" +:+ region w.

(** The [create_bucket] call of cell 14, with or without a location
    constraint. *)
Definition create_call (w : world) : event :=
  EvCreateBucket (bucket_name w)
    (if String.eqb (region w) "us-east-1" then None else Some (region w)).

Definition dataset_uploads (w : world) : list event :=
  [EvUpload "train.csv" (bucket_name w) "input/dbpedia";
   EvUpload "test.csv" (bucket_name w) "input/dbpedia"].

Definition owned_notice : event :=
  EvPrint "A bucket with the same name already exists in your account - using the same bucket.".

(** The environment cell 49 gives the SparkML model. *)
Definition sparkml_env (schema_json : string) : gmap string string :=
  <["SAGEMAKER_SPARKML_SCHEMA" := schema_json]>
  (<["SAGEMAKER_DEFAULT_INVOCATIONS_ACCEPT" := "application/jsonlines;data=text"]> ∅).

(** [create_bucket] lets cell 14 through: it succeeds, or it raises a
    [ClientError] whose response has the two entries the handler reads. *)
Definition bucket_step_passes (w : world) : Prop :=
  match create_bucket_raises w with
  | None => True
  | Some (Py.ClientError response) =>
      ∃ error, response !! "Error" = Some error ∧
               is_Some (error !! "Code") ∧ is_Some (error !! "Message")
  | Some _ => False
  end.

(** ** Worlds to run the notebook in *)

(** The bucket is new and the Glue run is seen RUNNING twice before it
    succeeds. *)
Definition sample_world : world :=
  World "123456789012" "eu-west-1" "arn:aws:iam::123456789012:role/service-role/Notebook"
        None
        (fun _ => "2019-01-15-10-30-00")
        "jr_0001"
        (fun k => if (k <? 2)%nat then "RUNNING" else "SUCCEEDED")
        (fun region algo version => region +:+ "/" +:+ algo +:+ ":" +:+ version)
        "s3://aws-glue-123456789012-eu-west-1/2019-01-15-10-30-00/dbpedia/bt_model/job/output/model.tar.gz"
        (fun _ _ => "{}").

(** The same world with other answers from Glue, or another fate for
    [create_bucket]. *)
Definition with_job_run_state (answers : nat -> string) (w : world) : world :=
  World (account w) (region w) (execution_role w) (create_bucket_raises w)
        (gmtime w) (new_job_run_id w) answers (get_image_uri w)
        (fitted_model_data w) (invoke_endpoint w).

Definition with_create_bucket_raises (e : option Py.exn) (w : world) : world :=
  World (account w) (region w) (execution_role w) e
        (gmtime w) (new_job_run_id w) (job_run_state w) (get_image_uri w)
        (fitted_model_data w) (invoke_endpoint w).

(** The Glue run never leaves RUNNING. *)
Definition stuck_world : world := with_job_run_state (fun _ => "RUNNING") sample_world.

(** The Glue run has failed by the first status query. *)
Definition failed_world : world := with_job_run_state (fun _ => "FAILED") sample_world.

(** The error S3 sends for a bucket the caller already owns. *)
Definition owned_error : gmap string string :=
  <["Code" := "BucketAlreadyOwnedByYou"]>
  (<["Message" := "Your previous request to create the named bucket succeeded and you already own it."]> ∅).

Definition owned_world : world :=
  with_create_bucket_raises (Some (Py.ClientError {[ "Error" := owned_error ]})) sample_world.

(** The error S3 sends when the bucket name belongs to another account. *)
Definition taken_error : gmap string string :=
  <["Code" := "BucketAlreadyExists"]>
  (<["Message" := "The requested bucket name is not available."]> ∅).

Definition taken_world : world :=
  with_create_bucket_raises (Some (Py.ClientError {[ "Error" := taken_error ]})) sample_world.

(** The locations cell 25 computes in [sample_world]. *)
Definition sample_locations : locations :=
  Locations "2019-01-15-10-30-00"
            "aws-glue-123456789012-eu-west-1" "input/dbpedia"
            "aws-glue-123456789012-eu-west-1" "2019-01-15-10-30-00/dbpedia"
            "aws-glue-123456789012-eu-west-1" "2019-01-15-10-30-00/dbpedia/mleap".

(** A two-line batch input and a model that answers every record with
    the same label. *)
Definition sample_batch_input : string :=
  "Convair was an american aircraft manufacturing company"
  +:+ String newline ("Berwick secondary college" +:+ String newline EmptyString).

Definition sample_invoke (record : string) : string := "__label__Company".

(** Writes a text with apostrophes in place of double quotes. *)
Fixpoint apostrophes (s : string) : string :=
  match s with
  | EmptyString => EmptyString
  | String c rest =>
      String (if Ascii.eqb c Py.dquote then "'"%char else c) (apostrophes rest)
  end.

(** ** Readings of a trace *)

(** The texts printed in a trace, in order. *)
Definition prints (tr : list event) : list string :=
  flat_map (fun e => match e with EvPrint text => [text] | _ => [] end) tr.

(** The uploads of a trace: path, bucket and key prefix of each. *)
Definition uploads (tr : list event) : list (string * string * string) :=
  flat_map (fun e => match e with
                     | EvUpload path bucket key_prefix => [(path, bucket, key_prefix)]
                     | _ => []
                     end) tr.

(** The job name and run id of every status query of a trace. *)
Definition polled (tr : list event) : list (string * string) :=
  flat_map (fun e => match e with
                     | EvGetJobRun job_name run_id => [(job_name, run_id)]
                     | _ => []
                     end) tr.

(** The calls that consume the output of the Glue run: training,
    deployment, requests to the endpoint and the batch transform. *)
Definition downstream (tr : list event) : list event :=
  List.filter (fun e => match e with
                        | EvFit _ _ | EvDeploy _ _ _ _ | EvPredict _ _
                        | EvTransform _ _ _ _ => true
                        | _ => false
                        end) tr.

(** The calls into Glue of a trace. *)
Definition glue_calls (tr : list event) : list event :=
  List.filter (fun e => match e with
                        | EvCreateJob _ _ _ _ _ | EvStartJobRun _ _
                        | EvGetJobRun _ _ => true
                        | _ => false
                        end) tr.

(** The locations cell 25 computes from the timestamp [ts]. *)
Definition locations_at (w : world) (ts : string) : locations :=
  Locations ts (bucket_name w) "input/dbpedia"
            (bucket_name w) (ts +:+ "/dbpedia")
            (bucket_name w) ((ts +:+ "/dbpedia") +:+ "/mleap").

(** The calls of cells 8 to 30 in order, for the timestamp [ts] and the
    notice, if any, that the handler of cell 14 printed. *)
Definition submission_calls (w : world) (ts : string) (notice : list event)
  : list event :=
  [EvPrint (Py.after_last_slash (execution_role w)); create_call w]
  ++ notice ++ dataset_uploads w
  ++ [EvUpload "dbpedia_processing.py" (bucket_name w) "codes";
      EvUpload "python.zip" (bucket_name w) "dependencies/python";
      EvUpload "mleap_spark_assembly.jar" (bucket_name w) "dependencies/jar";
      EvClock;
      EvCreateJob ("sparkml-dbpedia-" +:+ ts) (execution_role w)
        ("s3://" +:+ bucket_name w +:+ "/codes/dbpedia_processing.py")
        ("s3://" +:+ bucket_name w +:+ "/dependencies/jar/mleap_spark_assembly.jar")
        ("s3://" +:+ bucket_name w +:+ "/dependencies/python/python.zip");
      EvPrint ("sparkml-dbpedia-" +:+ ts);
      EvStartJobRun ("sparkml-dbpedia-" +:+ ts) (job_arguments (locations_at w ts));
      EvPrint (new_job_run_id w)].

(** ** Further worlds *)

(** [create_bucket] fails with something that is not a [ClientError]. *)
Definition offline_world : world :=
  with_create_bucket_raises (Some (Py.OtherError "EndpointConnectionError")) sample_world.

(** The bucket is already owned, but the error response carries no
    message. *)
Definition terse_error : gmap string string :=
  <["Code" := "BucketAlreadyOwnedByYou"]> ∅.

Definition terse_world : world :=
  with_create_bucket_raises (Some (Py.ClientError {[ "Error" := terse_error ]})) sample_world.

(** The same services one second later. *)
Definition later_world : world :=
  World (account sample_world) (region sample_world) (execution_role sample_world)
        (create_bucket_raises sample_world)
        (fun _ => "2019-01-15-10-30-01")
        (new_job_run_id sample_world) (job_run_state sample_world)
        (get_image_uri sample_world) (fitted_model_data sample_world)
        (invoke_endpoint sample_world).

(** * Properties *)

Local Open Scope nat_scope.

(** ** The builtins and one complete run *)

Example format_bucket :
  Py.format "aws-glue-{}-{}" ["123456789012"; "eu-west-1"]
  = inr "aws-glue-123456789012-eu-west-1".
Proof. reflexivity. Qed.

Example format_short : Py.format "s3://{}/{}/{}" ["b"; "k"] = inl Py.IndexError.
Proof. reflexivity. Qed.

Example role_name :
  Py.after_last_slash "arn:aws:iam::1:role/service-role/Notebook" = "Notebook".
Proof. reflexivity. Qed.

Example role_plain : Py.after_last_slash "Notebook" = "Notebook".
Proof. reflexivity. Qed.

Example schema_json_text :
  apostrophes (Py.dumps schema)
  = "{'input': [{'name': 'abstract', 'type': 'string'}], 'output': {'name': 'tokenized_abstract', 'type': 'string', 'struct': 'array'}}".
Proof. reflexivity. Qed.

Example dumps_escapes :
  apostrophes (Py.dumps (Py.JStr (String Py.backslash (String newline (String (ascii_of_nat 127) "a")))))
  = String "'" (String Py.backslash (String Py.backslash (String Py.backslash
      ("n" +:+ String Py.backslash "u007fa'")))).
Proof. reflexivity. Qed.

Example sample_run_status :
  match notebook sample_world 5 start with
  | Done g m => g_job_run_status g = "SUCCEEDED" ∧ polls m = 3 ∧ clock_reads m = 1
  | _ => False
  end.
Proof. vm_compute. auto. Qed.

Lemma append_empty_r (s : string) : s +:+ "" = s.
Proof.
  induction s as [|c s IH]; [reflexivity|].
  change (String c s +:+ "") with (String c (s +:+ "")). congruence.
Qed.

Lemma format_bucket_name a r m :
  format "aws-glue-{}-{}" [a; r] m = Done ("aws-glue-" +:+ a +:+ "-" +:+ r) m.
Proof.
  unfold format. cbn [Py.format]. rewrite append_empty_r. reflexivity.
Qed.

Lemma format_s3_uri a b c m :
  format "s3://{}/{}/{}" [a; b; c] m
  = Done ("s3://" +:+ a +:+ "/" +:+ b +:+ "/" +:+ c) m.
Proof.
  unfold format. cbn [Py.format]. rewrite append_empty_r. reflexivity.
Qed.

(** Runs the monadic plumbing of a cell whose calls cannot fail. *)
Ltac run_cell :=
  repeat first
    [ match goal with
      | |- context [format "aws-glue-{}-{}" _ _] => rewrite format_bucket_name
      | |- context [format "s3://{}/{}/{}" _ _] => rewrite format_s3_uri
      end
    | progress cbv [mbind mret M_bind M_ret emit print sleep after
                      trace polls clock_reads hosted_models hosted_endpoints] ].

(** Finds an event in a trace built with [++] and [::]. *)
Ltac in_trace :=
  solve [ assumption
        | apply list_elem_of_here
        | apply list_elem_of_further; in_trace
        | apply elem_of_app; left; in_trace
        | apply elem_of_app; right; in_trace ].

(** ** The job-completion poller (cell 33) *)

Section Poller.

Variable w : world.
Variables job_name job_run_id : string.

Lemma in_tuple_terminal s :
  Py.in_tuple s terminal_states = true ↔
  s = "FAILED" ∨ s = "SUCCEEDED" ∨ s = "STOPPED".
Proof.
  unfold Py.in_tuple, terminal_states; simpl.
  rewrite !orb_true_iff, !String.eqb_eq. intuition discriminate.
Qed.

Lemma tested_shift st p k :
  tested w (job_run_state w p) (S p) k = tested w st p (S k).
Proof. destruct k; simpl; f_equal; lia. Qed.

Lemma poll_loop_exit fuel st m :
  Py.in_tuple st terminal_states = true →
  poll_loop w fuel job_name job_run_id st m = Done st m.
Proof. intros H. destruct fuel; cbn [poll_loop]; rewrite H; reflexivity. Qed.

Lemma poll_loop_step fuel st m :
  Py.in_tuple st terminal_states = false →
  poll_loop w (S fuel) job_name job_run_id st m
  = poll_loop w fuel job_name job_run_id (job_run_state w (polls m))
      (Machine (trace m ++ iteration w job_name job_run_id (polls m)) (S (polls m)) (clock_reads m)
               (hosted_models m) (hosted_endpoints m)).
Proof.
  intros H. cbn [poll_loop]. rewrite H. cbn [negb].
  unfold mbind, M_bind, get_job_run, print, sleep, emit, iteration; simpl.
  rewrite <- !app_assoc. reflexivity.
Qed.

(** The loop leaves after exactly [n] iterations when the [n]-th tested
    status is the first terminal one, whatever fuel is left over. *)
Lemma poll_loop_reaches n : ∀ fuel st m,
  n ≤ fuel →
  (∀ k, k < n → Py.in_tuple (tested w st (polls m) k) terminal_states = false) →
  Py.in_tuple (tested w st (polls m) n) terminal_states = true →
  poll_loop w fuel job_name job_run_id st m
  = Done (tested w st (polls m) n)
      (Machine (trace m ++ flat_map (iteration w job_name job_run_id) (seq (polls m) n)) (polls m + n)
               (clock_reads m) (hosted_models m) (hosted_endpoints m)).
Proof.
  induction n as [|n IH]; intros fuel st m Hfuel Hpre Hend.
  - simpl in *. rewrite poll_loop_exit by assumption.
    rewrite app_nil_r, Nat.add_0_r. destruct m; reflexivity.
  - destruct fuel as [|fuel]; [lia|].
    rewrite poll_loop_step by (apply (Hpre 0); lia).
    rewrite IH; cbn [polls trace clock_reads hosted_models hosted_endpoints].
    + rewrite tested_shift with (st := st).
      rewrite <- app_assoc, Nat.add_succ_r. reflexivity.
    + lia.
    + intros k Hk. rewrite tested_shift with (st := st). apply Hpre. lia.
    + rewrite tested_shift with (st := st). assumption.
Qed.

(** While no terminal status shows up the loop uses all the fuel it is
    given: one query, one print and one 30-second sleep per unit. *)
Lemma poll_loop_keeps_going fuel : ∀ st m,
  (∀ k, Py.in_tuple (tested w st (polls m) k) terminal_states = false) →
  poll_loop w fuel job_name job_run_id st m
  = Running
      (Machine (trace m ++ flat_map (iteration w job_name job_run_id) (seq (polls m) fuel)) (polls m + fuel)
               (clock_reads m) (hosted_models m) (hosted_endpoints m)).
Proof.
  induction fuel as [|fuel IH]; intros st m Hall.
  - pose proof (Hall 0) as H0. cbn [tested] in H0.
    cbn [poll_loop]. rewrite H0. simpl.
    rewrite app_nil_r, Nat.add_0_r. destruct m; reflexivity.
  - rewrite poll_loop_step by (apply (Hall 0)).
    rewrite IH; cbn [polls trace clock_reads hosted_models hosted_endpoints].
    + rewrite <- app_assoc, Nat.add_succ_r. reflexivity.
    + intros k. rewrite tested_shift with (st := st). apply Hall.
Qed.

(** The loop is left only with a terminal status in hand. *)
Lemma poll_loop_done_terminal fuel : ∀ st m r m',
  poll_loop w fuel job_name job_run_id st m = Done r m' →
  Py.in_tuple r terminal_states = true.
Proof.
  induction fuel as [|fuel IH]; intros st m r m' H;
    destruct (Py.in_tuple st terminal_states) eqn:Hst.
  - rewrite poll_loop_exit in H by assumption. congruence.
  - cbn [poll_loop] in H. rewrite Hst in H. discriminate.
  - rewrite poll_loop_exit in H by assumption. congruence.
  - rewrite poll_loop_step in H by assumption. eapply IH, H.
Qed.

(** The loop itself never raises. *)
Lemma poll_loop_no_raise fuel : ∀ st m e m',
  poll_loop w fuel job_name job_run_id st m ≠ Raised e m'.
Proof.
  induction fuel as [|fuel IH]; intros st m e m';
    destruct (Py.in_tuple st terminal_states) eqn:Hst.
  - rewrite poll_loop_exit by assumption. discriminate.
  - cbn [poll_loop]. rewrite Hst. discriminate.
  - rewrite poll_loop_exit by assumption. discriminate.
  - rewrite poll_loop_step by assumption. apply IH.
Qed.

Lemma cell33_unfold fuel m :
  cell33 w fuel job_name job_run_id m
  = poll_loop w fuel job_name job_run_id (job_run_state w (polls m))
      (Machine (trace m ++ [EvGetJobRun job_name job_run_id]) (S (polls m))
               (clock_reads m) (hosted_models m) (hosted_endpoints m)).
Proof. reflexivity. Qed.

Lemma cell33_reaches n fuel m :
  (∀ k, k < n → Py.in_tuple (job_run_state w (polls m + k)) terminal_states = false) →
  Py.in_tuple (job_run_state w (polls m + n)) terminal_states = true →
  n ≤ fuel →
  cell33 w fuel job_name job_run_id m
  = Done (job_run_state w (polls m + n))
      (Machine (trace m ++ EvGetJobRun job_name job_run_id
                  :: flat_map (iteration w job_name job_run_id) (seq (S (polls m)) n))
               (polls m + S n) (clock_reads m) (hosted_models m) (hosted_endpoints m)).
Proof.
  intros Hpre Hend Hfuel. rewrite cell33_unfold.
  rewrite (poll_loop_reaches n); cbn [polls trace clock_reads hosted_models hosted_endpoints];
    try assumption.
  - rewrite tested_shift with (st := ""). cbn [tested].
    rewrite <- app_assoc, Nat.add_succ_r. reflexivity.
  - intros k Hk. rewrite tested_shift with (st := ""). cbn [tested]. auto.
  - rewrite tested_shift with (st := ""). cbn [tested]. assumption.
Qed.

End Poller.

(** C1.  When the status answers reach a terminal value, the first one
    after [n] non-terminal answers, the poller of cell 33 comes back as soon
    as the fuel covers those [n] iterations, and [job_run_status] is then
    exactly that first terminal value; a status counts as terminal exactly
    when it is FAILED, SUCCEEDED or STOPPED. *)
Theorem poller_returns_first_terminal_status
    (w : world) (job_name job_run_id : string) (n fuel : nat) (m : machine) :
  (∀ k, k < n → Py.in_tuple (job_run_state w (polls m + k)) terminal_states = false) →
  Py.in_tuple (job_run_state w (polls m + n)) terminal_states = true →
  n ≤ fuel →
  (∀ s, Py.in_tuple s terminal_states = true ↔
        s = "FAILED" ∨ s = "SUCCEEDED" ∨ s = "STOPPED") ∧
  ∃ m', cell33 w fuel job_name job_run_id m
        = Done (job_run_state w (polls m + n)) m' ∧
        polls m' = polls m + S n.
Proof.
  intros Hpre Hend Hfuel. split; [apply in_tuple_terminal|].
  rewrite (cell33_reaches w job_name job_run_id n) by assumption.
  eexists. split; reflexivity.
Qed.

Lemma poller_returns_first_terminal_status_witness :
  ∃ m', cell33 sample_world 5 "sparkml-dbpedia" "jr_0001" start = Done "SUCCEEDED" m' ∧
        polls m' = 3.
Proof.
  refine (proj2 (poller_returns_first_terminal_status
                   sample_world "sparkml-dbpedia" "jr_0001" 2 5 start _ _ _)).
  - intros k Hk. destruct k as [|[|k]]; [reflexivity | reflexivity | lia].
  - reflexivity.
  - lia.
Defined.

Lemma sleeps_iterations w job_name job_run_id n : ∀ p,
  sleeps (flat_map (iteration w job_name job_run_id) (seq p n)) = repeat 30%Z n.
Proof.
  induction n as [|n IH]; intros p; [reflexivity|].
  cbn [seq flat_map]. unfold sleeps in *. rewrite flat_map_app, IH. reflexivity.
Qed.

Lemma queries_iterations w job_name job_run_id n : ∀ p,
  length (queries (flat_map (iteration w job_name job_run_id) (seq p n))) = n.
Proof.
  induction n as [|n IH]; intros p; [reflexivity|].
  cbn [seq flat_map]. unfold queries in *. rewrite List.filter_app, length_app, IH.
  reflexivity.
Qed.

(** C2.  When no status answer is ever terminal the poller of cell 33
    does not come back, whatever the fuel: it is still running after
    every number of iterations, each of which issued one status query
    and slept for the same 30 seconds; and for any answers at all, the
    loop is left only with FAILED, SUCCEEDED or STOPPED in hand. *)
Theorem poller_never_returns_without_terminal_status
    (w : world) (job_name job_run_id : string) (m : machine) :
  (∀ k, Py.in_tuple (job_run_state w (polls m + k)) terminal_states = false) →
  (∀ fuel, ∃ body m',
      cell33 w fuel job_name job_run_id m = Running m' ∧
      trace m' = trace m ++ EvGetJobRun job_name job_run_id :: body ∧
      body = flat_map (iteration w job_name job_run_id) (seq (S (polls m)) fuel) ∧
      length (queries body) = fuel ∧
      sleeps body = repeat 30%Z fuel ∧
      polls m' = polls m + S fuel) ∧
  (∀ w' fuel m0 status m',
      cell33 w' fuel job_name job_run_id m0 = Done status m' →
      status = "FAILED" ∨ status = "SUCCEEDED" ∨ status = "STOPPED").
Proof.
  intros Hall. split.
  - intros fuel. rewrite cell33_unfold, poll_loop_keeps_going.
    + cbn [polls trace clock_reads hosted_models hosted_endpoints].
      eexists _, _. split; [reflexivity|]. cbn [polls trace].
      split; [rewrite <- app_assoc; reflexivity|].
      split; [reflexivity|].
      split; [apply queries_iterations|].
      split; [apply sleeps_iterations|lia].
    + intros k. cbn [polls]. rewrite tested_shift with (st := "").
      cbn [tested]. apply Hall.
  - intros w' fuel m0 status m' H. rewrite cell33_unfold in H.
    apply poll_loop_done_terminal in H. apply in_tuple_terminal in H. exact H.
Qed.

Lemma poller_never_returns_without_terminal_status_witness :
  ∃ body m',
    cell33 stuck_world 3 "sparkml-dbpedia" "jr_0001" start = Running m' ∧
    trace m' = trace start ++ EvGetJobRun "sparkml-dbpedia" "jr_0001" :: body ∧
    body = flat_map (iteration stuck_world "sparkml-dbpedia" "jr_0001") (seq 1 3) ∧
    length (queries body) = 3 ∧
    sleeps body = repeat 30%Z 3 ∧
    polls m' = 4.
Proof.
  refine (proj1 (poller_never_returns_without_terminal_status
                   stuck_world "sparkml-dbpedia" "jr_0001" start _) 3).
  intros k. reflexivity.
Defined.

(** ** Bucket creation (cell 14) *)

Lemma cell14_fresh w m :
  create_bucket_raises w = None →
  cell14 w m = Done (bucket_name w) (after m (create_call w :: dataset_uploads w)).
Proof.
  intros Hok. unfold cell14, mbind, M_bind. rewrite format_bucket_name.
  unfold try_except_ClientError, create_call, after, dataset_uploads.
  fold (bucket_name w).
  destruct (String.eqb (region w) "us-east-1");
    unfold create_bucket, upload_data, mbind, M_bind, emit; rewrite Hok; simpl;
    rewrite <- !app_assoc; reflexivity.
Qed.

Lemma cell14_client_error w m response error code message :
  create_bucket_raises w = Some (Py.ClientError response) →
  response !! "Error" = Some error →
  error !! "Code" = Some code →
  error !! "Message" = Some message →
  cell14 w m
  = Done (bucket_name w)
      (after m (create_call w
                  :: (if String.eqb code "BucketAlreadyOwnedByYou" then [owned_notice] else [])
                  ++ dataset_uploads w)).
Proof.
  intros Hraise Herror Hcode Hmessage.
  unfold cell14, mbind, M_bind. rewrite format_bucket_name.
  unfold try_except_ClientError, create_call, after, dataset_uploads, owned_notice.
  fold (bucket_name w).
  destruct (String.eqb (region w) "us-east-1");
    unfold create_bucket, upload_data, subscript, mbind, M_bind, emit;
    rewrite Hraise; simpl; rewrite Herror; simpl; rewrite Hcode, Hmessage; simpl;
    destruct (String.eqb code "BucketAlreadyOwnedByYou"); simpl;
    rewrite <- !app_assoc; reflexivity.
Qed.

(** Anything that is not a [ClientError] leaves the cell through the
    [try] and no upload is made. *)
Lemma cell14_other_exception w m e :
  create_bucket_raises w = Some e →
  (∀ response, e ≠ Py.ClientError response) →
  cell14 w m = Raised e (after m [create_call w]).
Proof.
  intros Hraise Hother.
  unfold cell14, mbind, M_bind. rewrite format_bucket_name.
  unfold try_except_ClientError, create_call, after. fold (bucket_name w).
  destruct (String.eqb (region w) "us-east-1");
    unfold create_bucket, mbind, M_bind, emit; rewrite Hraise; simpl;
    (destruct e; try reflexivity; exfalso; eapply Hother; reflexivity).
Qed.


(** C4.  When [create_bucket] raises a [ClientError] whose code is
    BucketAlreadyOwnedByYou, cell 14 does not raise: it ends normally with
    the same bucket as in a world where the bucket is created afresh, and
    makes the same two uploads of train.csv and test.csv into it; the only
    difference is the printed notice. *)
Theorem owned_bucket_is_treated_as_created
    (w fresh : world) (m : machine)
    (response : gmap string (gmap string string)) (error : gmap string string)
    (message : string) :
  create_bucket_raises w = Some (Py.ClientError response) →
  response !! "Error" = Some error →
  error !! "Code" = Some "BucketAlreadyOwnedByYou" →
  error !! "Message" = Some message →
  account fresh = account w →
  region fresh = region w →
  create_bucket_raises fresh = None →
  cell14 fresh m
  = Done (bucket_name w) (after m (create_call w :: dataset_uploads w)) ∧
  cell14 w m
  = Done (bucket_name w) (after m (create_call w :: owned_notice :: dataset_uploads w)).
Proof.
  intros Hraise Herror Hcode Hmessage Haccount Hregion Hfresh. split.
  - rewrite cell14_fresh by assumption.
    unfold create_call, dataset_uploads, bucket_name. rewrite Haccount, Hregion.
    reflexivity.
  - rewrite (cell14_client_error w m response error _ message) by eassumption.
    reflexivity.
Qed.

Lemma owned_bucket_is_treated_as_created_witness :
  cell14 sample_world start
  = Done (bucket_name owned_world)
      (after start (create_call owned_world :: dataset_uploads owned_world)) ∧
  cell14 owned_world start
  = Done (bucket_name owned_world)
      (after start (create_call owned_world :: owned_notice :: dataset_uploads owned_world)).
Proof.
  apply (owned_bucket_is_treated_as_created owned_world sample_world start
           {[ "Error" := owned_error ]} owned_error
           "Your previous request to create the named bucket succeeded and you already own it.");
    reflexivity.
Defined.

(** C9.  The handler of cell 14 swallows every [ClientError]: whatever
    the error code, the cell ends normally and goes on to the two uploads
    into the bucket it meant to create; for a code other than
    BucketAlreadyOwnedByYou nothing is printed either, so the run cannot
    be told apart from one in which the bucket was created. *)
Theorem every_client_error_is_suppressed
    (w : world) (m : machine)
    (response : gmap string (gmap string string)) (error : gmap string string)
    (code message : string) :
  create_bucket_raises w = Some (Py.ClientError response) →
  response !! "Error" = Some error →
  error !! "Code" = Some code →
  error !! "Message" = Some message →
  ∃ notice,
    cell14 w m
    = Done (bucket_name w) (after m (create_call w :: notice ++ dataset_uploads w)) ∧
    (code ≠ "BucketAlreadyOwnedByYou" → notice = []).
Proof.
  intros Hraise Herror Hcode Hmessage.
  rewrite (cell14_client_error w m response error code message) by assumption.
  eexists. split; [reflexivity|].
  intros Hne. apply String.eqb_neq in Hne. rewrite Hne. reflexivity.
Qed.

Lemma every_client_error_is_suppressed_witness :
  ∃ notice,
    cell14 taken_world start
    = Done (bucket_name taken_world)
        (after start (create_call taken_world :: notice ++ dataset_uploads taken_world)) ∧
    ("BucketAlreadyExists" ≠ "BucketAlreadyOwnedByYou" → notice = []).
Proof.
  apply (every_client_error_is_suppressed taken_world start
           {[ "Error" := taken_error ]} taken_error
           "BucketAlreadyExists" "The requested bucket name is not available.");
    reflexivity.
Defined.

(** ** From the poller to training (cells 33 to 41) *)

(** Cell 39 touches no service: it ends normally with a setup that
    depends on its three arguments only. *)
Lemma cell39_pure role training_image loc :
  ∃ setup,
    (∀ m, cell39 role training_image loc m = Done setup m) ∧
    s3_train_data setup
    = "s3://" +:+ s3_output_bucket loc +:+ "/" +:+ s3_output_key_prefix loc +:+ "/train" ∧
    s3_validation_data setup
    = "s3://" +:+ s3_output_bucket loc +:+ "/" +:+ s3_output_key_prefix loc +:+ "/validation" ∧
    data_channels setup
    = <["train" := S3Input (s3_train_data setup) "FullyReplicated" "text/plain" "S3Prefix"]>
      (<["validation" := S3Input (s3_validation_data setup) "FullyReplicated" "text/plain" "S3Prefix"]> ∅).
Proof.
  eexists. split.
  - intros m. unfold cell39. run_cell. reflexivity.
  - repeat split.
Qed.

Lemma wait_then_train_done w role job_name job_run_id loc n fuel m setup :
  (∀ k, k < n → Py.in_tuple (job_run_state w (polls m + k)) terminal_states = false) →
  Py.in_tuple (job_run_state w (polls m + n)) terminal_states = true →
  n ≤ fuel →
  (∀ m0, cell39 role (get_image_uri w (region w) "blazingtext" "latest") loc m0
         = Done setup m0) →
  wait_then_train w fuel role job_name job_run_id loc m
  = Done (job_run_state w (polls m + n),
          get_image_uri w (region w) "blazingtext" "latest", setup, fitted_model_data w)
      (Machine
         (trace m ++ EvGetJobRun job_name job_run_id
            :: flat_map (iteration w job_name job_run_id) (seq (S (polls m)) n)
            ++ [EvPrint (get_image_uri w (region w) "blazingtext" "latest");
                EvFit (bt_estimator setup) (data_channels setup)])
         (polls m + S n) (clock_reads m) (hosted_models m) (hosted_endpoints m)).
Proof.
  intros Hpre Hend Hfuel Hsetup.
  unfold wait_then_train, mbind, M_bind.
  rewrite (cell33_reaches w job_name job_run_id n) by assumption.
  unfold cell37. run_cell. rewrite Hsetup.
  unfold cell41. run_cell.
  rewrite <- !app_assoc. reflexivity.
Qed.

(** C3.  Once the poller of cell 33 has come back, with whichever
    terminal status, the script goes on to [bt_model.fit]: the calls that
    follow the loop are the print of the training image and the fit, on an
    estimator and data channels that cell 39 builds without looking at
    [job_run_status]. *)
Theorem training_follows_every_terminal_status
    (w : world) (role job_name job_run_id : string) (loc : locations)
    (n fuel : nat) (m : machine) :
  (∀ k, k < n → Py.in_tuple (job_run_state w (polls m + k)) terminal_states = false) →
  Py.in_tuple (job_run_state w (polls m + n)) terminal_states = true →
  n ≤ fuel →
  ∃ m1 setup,
    let training_image := get_image_uri w (region w) "blazingtext" "latest" in
    cell33 w fuel job_name job_run_id m = Done (job_run_state w (polls m + n)) m1 ∧
    (∀ m0, cell39 role training_image loc m0 = Done setup m0) ∧
    wait_then_train w fuel role job_name job_run_id loc m
    = Done (job_run_state w (polls m + n), training_image, setup, fitted_model_data w)
        (after m1 [EvPrint training_image;
                   EvFit (bt_estimator setup) (data_channels setup)]).
Proof.
  intros Hpre Hend Hfuel.
  destruct (cell39_pure role (get_image_uri w (region w) "blazingtext" "latest") loc)
    as (setup & Hsetup & _).
  eexists _, setup. cbn zeta.
  split; [apply cell33_reaches; assumption|].
  split; [exact Hsetup|].
  rewrite (wait_then_train_done w role job_name job_run_id loc n fuel m setup)
    by assumption.
  unfold after. cbn [trace polls clock_reads hosted_models hosted_endpoints].
  rewrite <- app_assoc. reflexivity.
Qed.

Lemma training_follows_every_terminal_status_witness :
  ∃ m1 setup,
    let training_image := get_image_uri failed_world (region failed_world) "blazingtext" "latest" in
    cell33 failed_world 0 "sparkml-dbpedia" "jr_0001" start = Done "FAILED" m1 ∧
    (∀ m0, cell39 "Notebook" training_image sample_locations m0 = Done setup m0) ∧
    wait_then_train failed_world 0 "Notebook" "sparkml-dbpedia" "jr_0001" sample_locations start
    = Done ("FAILED", training_image, setup, fitted_model_data failed_world)
        (after m1 [EvPrint training_image;
                   EvFit (bt_estimator setup) (data_channels setup)]).
Proof.
  apply (training_follows_every_terminal_status failed_world
           "Notebook" "sparkml-dbpedia" "jr_0001" sample_locations 0 0 start).
  - intros k Hk. lia.
  - reflexivity.
  - lia.
Defined.

(** ** The pipeline model and its two uses (cells 46 to 64) *)

(** Cell 49 touches no service either. *)
Lemma cell49_pure role training_image bt_model_data schema_json loc :
  ∃ p,
    (∀ m, cell49 role training_image bt_model_data schema_json loc m = Done p m) ∧
    sparkml_data p
    = "s3://" +:+ s3_model_bucket loc +:+ "/" +:+ s3_model_key_prefix loc +:+ "/" +:+ "model.tar.gz" ∧
    sparkml_model p = SparkMLModel (sparkml_data p) (sparkml_env schema_json) ∧
    bt_model p = Model bt_model_data training_image ∧
    model_name p = "inference-pipeline-" +:+ timestamp_prefix loc ∧
    sm_model p = PipelineModel (model_name p) role [sparkml_model p; bt_model p].
Proof.
  eexists. split.
  - intros m. unfold cell49. run_cell. reflexivity.
  - repeat split.
Qed.

Lemma cell64_done default_bucket model_name loc m :
  ∃ t,
    cell64 default_bucket model_name loc m
    = Done t (after m [EvTransform t
                         ("s3://" +:+ default_bucket +:+ "/" +:+ "batch" +:+ "/" +:+ "batch_input_dbpedia.csv")
                         CONTENT_TYPE_CSV "Line";
                       EvTransformWait t]) ∧
    t = Transformer model_name 1 "ml.m4.xlarge" "SingleRecord" "Line"
          ("s3://" +:+ default_bucket +:+ "/" +:+ "batch_output/dbpedia" +:+ "/" +:+ timestamp_prefix loc)
          "serial-inference-batch" CONTENT_TYPE_CSV.
Proof.
  eexists. split; [|reflexivity].
  unfold cell64, after. run_cell. rewrite <- !app_assoc. reflexivity.
Qed.

Lemma assemble_and_deploy_done role training_image bt_model_data loc m p :
  (∀ m, cell49 role training_image bt_model_data (Py.dumps schema) loc m = Done p m) →
  assemble_and_deploy role training_image bt_model_data loc m
  = Done (p, "inference-pipeline-ep-" +:+ timestamp_prefix loc)
      (Machine (trace m ++ [EvPrint (Py.dumps schema);
                            EvDeploy (sm_model p) 1 "ml.c4.xlarge"
                              ("inference-pipeline-ep-" +:+ timestamp_prefix loc)])
               (polls m) (clock_reads m)
               (<[pm_name (sm_model p) := pm_models (sm_model p)]> (hosted_models m))
               (<["inference-pipeline-ep-" +:+ timestamp_prefix loc := pm_name (sm_model p)]>
                  (hosted_endpoints m))).
Proof.
  intros Hp. unfold assemble_and_deploy, cell46. run_cell. rewrite Hp.
  unfold cell51, deploy. run_cell. rewrite <- !app_assoc. reflexivity.
Qed.

Lemma serve_and_transform_done w default_bucket endpoint_name pipeline loc m :
  ∃ t later,
    serve_and_transform w default_bucket endpoint_name pipeline loc m
    = Done t (Machine (trace m ++ later) (polls m) (clock_reads m) (hosted_models m)
                      (delete endpoint_name (hosted_endpoints m))) ∧
    tr_model_name t = model_name pipeline.
Proof.
  unfold serve_and_transform, cell54, cell56, cell58, cell62, predict,
    delete_endpoint, upload_data.
  run_cell.
  match goal with
  | |- context [cell64 ?b ?n ?l ?m0] => destruct (cell64_done b n l m0) as (t & Ht & Heq)
  end.
  rewrite Ht. unfold after. run_cell. rewrite <- !app_assoc.
  eexists _, _. split; [reflexivity|].
  subst t. reflexivity.
Qed.

(** C5.  The pipeline model the notebook assembles holds exactly two
    model references, the SparkML model first and the BlazingText model
    second; the endpoint is bound to it by its name, the transformer names
    the same model, and on either path a request is served by the SparkML
    stage first and the BlazingText stage on its output. *)
Theorem pipeline_is_sparkml_then_blazingtext_on_both_paths
    (w : world) (serve : model -> string -> string)
    (role default_bucket training_image bt_model_data : string)
    (loc : locations) (m : machine) :
  ∃ p endpoint_name m1 t m2,
    assemble_and_deploy role training_image bt_model_data loc m
    = Done (p, endpoint_name) m1 ∧
    serve_and_transform w default_bucket endpoint_name p loc m1 = Done t m2 ∧
    pm_models (sm_model p) = [sparkml_model p; bt_model p] ∧
    sparkml_model p = SparkMLModel (sparkml_data p) (sparkml_env (Py.dumps schema)) ∧
    bt_model p = Model bt_model_data training_image ∧
    pm_name (sm_model p) = model_name p ∧
    hosted_endpoints m1 !! endpoint_name = Some (model_name p) ∧
    tr_model_name t = model_name p ∧
    ∀ request,
      invoke_by_endpoint serve m1 endpoint_name request
      = Some ([sparkml_model p; bt_model p],
              serve (bt_model p) (serve (sparkml_model p) request)) ∧
      invoke_by_model_name serve m2 (tr_model_name t) request
      = Some ([sparkml_model p; bt_model p],
              serve (bt_model p) (serve (sparkml_model p) request)).
Proof.
  destruct (cell49_pure role training_image bt_model_data (Py.dumps schema) loc)
    as (p & Hp & _ & Hspark & Hbt & _ & Hsm).
  pose proof (assemble_and_deploy_done role training_image bt_model_data loc m p Hp)
    as Hdeploy.
  match type of Hdeploy with _ = Done (_, ?ep) ?m1 =>
    destruct (serve_and_transform_done w default_bucket ep p loc m1)
      as (t & later & Hrun & Hname)
  end.
  eexists p, _, _, t, _.
  split; [exact Hdeploy|]. split; [exact Hrun|].
  assert (Hpm : pm_models (sm_model p) = [sparkml_model p; bt_model p])
    by (rewrite Hsm; reflexivity).
  assert (Hpn : pm_name (sm_model p) = model_name p) by (rewrite Hsm; reflexivity).
  repeat split; try assumption.
  - cbn [hosted_endpoints]. rewrite lookup_insert_eq, Hpn. reflexivity.
  - unfold invoke_by_endpoint, invoke_by_model_name. cbn [hosted_endpoints hosted_models].
    rewrite lookup_insert_eq. cbn [mbind option_bind].
    rewrite lookup_insert_eq. cbn [mbind option_bind]. rewrite Hpm. reflexivity.
  - unfold invoke_by_model_name. rewrite Hname. cbn [hosted_models].
    rewrite <- Hpn, lookup_insert_eq. cbn [mbind option_bind]. rewrite Hpm. reflexivity.
Qed.

Lemma sparkml_env_accept schema_json :
  sparkml_env schema_json !! "SAGEMAKER_DEFAULT_INVOCATIONS_ACCEPT"
  = Some "application/jsonlines;data=text".
Proof.
  unfold sparkml_env. rewrite lookup_insert_ne by discriminate.
  apply lookup_insert_eq.
Qed.

(** C6.  The SparkML model, the first of the pipeline, is registered
    with an environment of exactly two entries: the accept override
    SAGEMAKER_DEFAULT_INVOCATIONS_ACCEPT set to
    application/jsonlines;data=text, which replaces the CSV the stage
    answers in by default, and the schema descriptor, the JSON text of
    [schema], under SAGEMAKER_SPARKML_SCHEMA. *)
Theorem sparkml_model_overrides_its_output_encoding
    (role training_image bt_model_data : string) (loc : locations) (m : machine) :
  ∃ p endpoint_name m1 env,
    assemble_and_deploy role training_image bt_model_data loc m
    = Done (p, endpoint_name) m1 ∧
    head (pm_models (sm_model p)) = Some (SparkMLModel (sparkml_data p) env) ∧
    env !! "SAGEMAKER_DEFAULT_INVOCATIONS_ACCEPT" = Some "application/jsonlines;data=text" ∧
    env !! "SAGEMAKER_SPARKML_SCHEMA" = Some (Py.dumps schema) ∧
    dom env = {[ "SAGEMAKER_DEFAULT_INVOCATIONS_ACCEPT"; "SAGEMAKER_SPARKML_SCHEMA" ]} ∧
    stage_output_encoding env = "application/jsonlines;data=text" ∧
    stage_output_encoding ∅ = CONTENT_TYPE_CSV.
Proof.
  destruct (cell49_pure role training_image bt_model_data (Py.dumps schema) loc)
    as (p & Hp & _ & Hspark & _ & _ & Hsm).
  eexists p, _, _, (sparkml_env (Py.dumps schema)).
  split; [apply assemble_and_deploy_done, Hp|].
  split; [rewrite Hsm, Hspark; reflexivity|].
  split; [apply sparkml_env_accept|].
  split; [apply lookup_insert_eq|].
  split.
  - unfold sparkml_env. rewrite !dom_insert_L, dom_empty_L. set_solver.
  - unfold stage_output_encoding. rewrite sparkml_env_accept, lookup_empty.
    split; reflexivity.
Qed.

(** ** The batch transform (cell 64) *)

Lemma split_lines_cons_line (line rest : string) :
  Py.contains newline line = false →
  split_lines (line +:+ String newline rest) = line :: split_lines rest.
Proof.
  induction line as [|c line IH]; intros Hfree.
  - reflexivity.
  - cbn [Py.contains] in Hfree. apply orb_false_iff in Hfree as [Hc Hline].
    change (String c line +:+ String newline rest)
      with (String c (line +:+ String newline rest)).
    cbn [split_lines]. rewrite Ascii.eqb_sym, Hc, IH by assumption. reflexivity.
Qed.

Lemma split_lines_unlines (answers : list string) :
  Forall (fun a => Py.contains newline a = false) answers →
  split_lines (unlines answers) = answers.
Proof.
  induction 1 as [|a answers Ha _ IH]; [reflexivity|].
  cbn [unlines]. rewrite split_lines_cons_line, IH by assumption. reflexivity.
Qed.

(** C7.  With the transformer and the call of cell 64 (split type Line,
    strategy SingleRecord, assembled with Line) and a model that answers
    every record with a single line, a batch input of N lines gives an
    output of exactly N lines, the i-th of which is the answer to the i-th
    input line. *)
Theorem batch_output_has_one_line_per_input_line
    (invoke : string -> string) (default_bucket model_name : string)
    (loc : locations) (m : machine) (content : string) :
  (∀ record, Py.contains newline (invoke record) = false) →
  ∃ t data,
    cell64 default_bucket model_name loc m
    = Done t (after m [EvTransform t data CONTENT_TYPE_CSV "Line"; EvTransformWait t]) ∧
    tr_strategy t = "SingleRecord" ∧
    tr_assemble_with t = "Line" ∧
    let output := batch_transform invoke t "Line" content in
    length (split_lines output) = length (split_lines content) ∧
    ∀ i line, split_lines content !! i = Some line →
              split_lines output !! i = Some (invoke line).
Proof.
  intros Hline.
  destruct (cell64_done default_bucket model_name loc m) as (t & Hrun & Ht).
  eexists t, _. split; [exact Hrun|].
  subst t. cbn [tr_strategy tr_assemble_with].
  split; [reflexivity|]. split; [reflexivity|].
  cbn zeta. unfold batch_transform, assemble, payloads, split_records.
  cbn [tr_strategy tr_assemble_with String.eqb Ascii.eqb Bool.eqb].
  rewrite split_lines_unlines.
  - split; [apply length_map|].
    intros i line Hi. rewrite list_lookup_fmap, Hi. reflexivity.
  - apply Forall_forall. intros a Ha. apply list_elem_of_In in Ha.
    apply in_map_iff in Ha as (r & <- & _). apply Hline.
Qed.

Lemma batch_output_has_one_line_per_input_line_witness :
  ∃ t data,
    cell64 "aws-glue-123456789012-eu-west-1" "inference-pipeline-2019-01-15-10-30-00"
           sample_locations start
    = Done t (after start [EvTransform t data CONTENT_TYPE_CSV "Line"; EvTransformWait t]) ∧
    tr_strategy t = "SingleRecord" ∧
    tr_assemble_with t = "Line" ∧
    let output := batch_transform sample_invoke t "Line" sample_batch_input in
    length (split_lines output) = length (split_lines sample_batch_input) ∧
    ∀ i line, split_lines sample_batch_input !! i = Some line →
              split_lines output !! i = Some (sample_invoke line).
Proof.
  apply (batch_output_has_one_line_per_input_line sample_invoke
           "aws-glue-123456789012-eu-west-1" "inference-pipeline-2019-01-15-10-30-00"
           sample_locations start sample_batch_input).
  intros record. reflexivity.
Defined.

(** ** Storage locations across the cells *)

Lemma cell14_passes w m :
  bucket_step_passes w →
  ∃ notice,
    cell14 w m = Done (bucket_name w) (after m (create_call w :: notice ++ dataset_uploads w)).
Proof.
  unfold bucket_step_passes. intros Hpass.
  destruct (create_bucket_raises w) as [e|] eqn:Hraise.
  - destruct e as [response| | | |]; try contradiction.
    destruct Hpass as (error & Herror & [code Hcode] & [message Hmessage]).
    rewrite (cell14_client_error w m response error code message) by assumption.
    eexists. reflexivity.
  - exists []. apply cell14_fresh, Hraise.
Qed.

Lemma submit_job_done w m :
  bucket_step_passes w →
  ∃ loc job_name m1,
    submit_job w m
    = Done (execution_role w, bucket_name w, loc, job_name, new_job_run_id w) m1 ∧
    loc = Locations (gmtime w (clock_reads m))
            (bucket_name w) "input/dbpedia"
            (bucket_name w) (gmtime w (clock_reads m) +:+ "/dbpedia")
            (bucket_name w) ((gmtime w (clock_reads m) +:+ "/dbpedia") +:+ "/mleap") ∧
    job_name = "sparkml-dbpedia-" +:+ gmtime w (clock_reads m) ∧
    polls m1 = polls m ∧
    clock_reads m1 = S (clock_reads m) ∧
    hosted_models m1 = hosted_models m ∧
    hosted_endpoints m1 = hosted_endpoints m ∧
    EvStartJobRun job_name (job_arguments loc) ∈ trace m1.
Proof.
  intros Hpass. unfold submit_job, cell8. run_cell.
  match goal with
  | |- context [cell14 w ?m0] => destruct (cell14_passes w m0 Hpass) as [notice Hcell14]
  end.
  rewrite Hcell14.
  unfold cell19, cell23, cell25, cell28, cell30, upload_data, strftime_gmtime, after.
  run_cell.
  eexists _, _, _. split; [reflexivity|].
  cbn [polls clock_reads hosted_models hosted_endpoints trace timestamp_prefix].
  repeat split. in_trace.
Qed.

Lemma job_arguments_lookup loc :
  job_arguments loc !! "--S3_OUTPUT_BUCKET" = Some (s3_output_bucket loc) ∧
  job_arguments loc !! "--S3_OUTPUT_KEY_PREFIX" = Some (s3_output_key_prefix loc) ∧
  job_arguments loc !! "--S3_MODEL_BUCKET" = Some (s3_model_bucket loc) ∧
  job_arguments loc !! "--S3_MODEL_KEY_PREFIX" = Some (s3_model_key_prefix loc).
Proof.
  unfold job_arguments.
  repeat split;
    repeat (rewrite lookup_insert_ne by discriminate); apply lookup_insert_eq.
Qed.

(** C10.  In a complete run the clock is read once, and every storage
    location comes from that one timestamp prefix: the three buckets are
    the default bucket, the output prefix is the timestamp plus /dbpedia
    and the model prefix the output prefix plus /mleap; the Glue run is
    started with exactly these, the training channels read from the output
    bucket and prefix given to Glue plus /train and /validation, and the
    SparkML model registered first in the pipeline takes its artifact from
    the model bucket and prefix given to Glue plus /model.tar.gz. *)
Theorem storage_locations_are_threaded
    (w : world) (n fuel : nat) (m : machine) :
  bucket_step_passes w →
  (∀ k, k < n → Py.in_tuple (job_run_state w (polls m + k)) terminal_states = false) →
  Py.in_tuple (job_run_state w (polls m + n)) terminal_states = true →
  n ≤ fuel →
  ∃ g m' env,
    notebook w fuel m = Done g m' ∧
    clock_reads m' = S (clock_reads m) ∧
    let loc := g_locations g in
    let args := job_arguments loc in
    let setup := g_training g in
    timestamp_prefix loc = gmtime w (clock_reads m) ∧
    s3_output_key_prefix loc = timestamp_prefix loc +:+ "/dbpedia" ∧
    s3_model_key_prefix loc = s3_output_key_prefix loc +:+ "/mleap" ∧
    s3_input_bucket loc = g_default_bucket g ∧
    s3_output_bucket loc = g_default_bucket g ∧
    s3_model_bucket loc = g_default_bucket g ∧
    EvStartJobRun (g_job_name g) args ∈ trace m' ∧
    args !! "--S3_OUTPUT_BUCKET" = Some (s3_output_bucket loc) ∧
    args !! "--S3_OUTPUT_KEY_PREFIX" = Some (s3_output_key_prefix loc) ∧
    args !! "--S3_MODEL_BUCKET" = Some (s3_model_bucket loc) ∧
    args !! "--S3_MODEL_KEY_PREFIX" = Some (s3_model_key_prefix loc) ∧
    s3_train_data setup
    = "s3://" +:+ s3_output_bucket loc +:+ "/" +:+ s3_output_key_prefix loc +:+ "/train" ∧
    s3_validation_data setup
    = "s3://" +:+ s3_output_bucket loc +:+ "/" +:+ s3_output_key_prefix loc +:+ "/validation" ∧
    EvFit (bt_estimator setup) (data_channels setup) ∈ trace m' ∧
    s3_data <$> data_channels setup !! "train" = Some (s3_train_data setup) ∧
    s3_data <$> data_channels setup !! "validation" = Some (s3_validation_data setup) ∧
    sparkml_data (g_pipeline g)
    = "s3://" +:+ s3_model_bucket loc +:+ "/" +:+ s3_model_key_prefix loc +:+ "/model.tar.gz" ∧
    head (pm_models (sm_model (g_pipeline g)))
    = Some (SparkMLModel (sparkml_data (g_pipeline g)) env).
Proof.
  intros Hpass Hpre Hend Hfuel.
  destruct (submit_job_done w m Hpass)
    as (loc & job_name & m1 & Hsubmit & Hloc & Hjob & Hpolls & Hclock & _ & _ & Hstart).
  destruct (cell39_pure (execution_role w)
              (get_image_uri w (region w) "blazingtext" "latest") loc)
    as (setup & Hsetup & Htrain & Hvalidation & Hchannels).
  destruct (cell49_pure (execution_role w)
              (get_image_uri w (region w) "blazingtext" "latest")
              (fitted_model_data w) (Py.dumps schema) loc)
    as (p & Hp & Hdata & Hspark & _ & _ & Hsm).
  pose proof (wait_then_train_done w (execution_role w) job_name (new_job_run_id w)
                loc n fuel m1 setup) as Htraining.
  rewrite Hpolls in Htraining. specialize (Htraining Hpre Hend Hfuel Hsetup).
  unfold notebook, mbind, M_bind. rewrite Hsubmit, Htraining.
  rewrite (assemble_and_deploy_done _ _ _ _ _ p Hp).
  match goal with
  | |- context [serve_and_transform w ?b ?ep ?pp ?l ?m0] =>
      destruct (serve_and_transform_done w b ep pp l m0) as (t & later & Hserve & _)
  end.
  rewrite Hserve. cbn [trace polls clock_reads hosted_models hosted_endpoints mret M_ret].
  eexists _, _, (sparkml_env (Py.dumps schema)). split; [reflexivity|].
  cbn [clock_reads trace g_locations g_default_bucket g_job_name g_training g_pipeline].
  cbn zeta.
  destruct (job_arguments_lookup loc) as (Ha1 & Ha2 & Ha3 & Ha4).
  split; [exact Hclock|].
  rewrite Hchannels, Hsm, Hspark.
  subst loc.
  cbn [timestamp_prefix s3_input_bucket s3_output_bucket s3_output_key_prefix
         s3_model_bucket s3_model_key_prefix] in *.
  repeat split; try assumption; try in_trace.
  all: repeat (rewrite lookup_insert_ne by discriminate);
    rewrite lookup_insert_eq; reflexivity.
Qed.

Lemma storage_locations_are_threaded_witness :
  ∃ g m' env,
    notebook sample_world 5 start = Done g m' ∧
    clock_reads m' = S (clock_reads start) ∧
    let loc := g_locations g in
    let args := job_arguments loc in
    let setup := g_training g in
    timestamp_prefix loc = gmtime sample_world (clock_reads start) ∧
    s3_output_key_prefix loc = timestamp_prefix loc +:+ "/dbpedia" ∧
    s3_model_key_prefix loc = s3_output_key_prefix loc +:+ "/mleap" ∧
    s3_input_bucket loc = g_default_bucket g ∧
    s3_output_bucket loc = g_default_bucket g ∧
    s3_model_bucket loc = g_default_bucket g ∧
    EvStartJobRun (g_job_name g) args ∈ trace m' ∧
    args !! "--S3_OUTPUT_BUCKET" = Some (s3_output_bucket loc) ∧
    args !! "--S3_OUTPUT_KEY_PREFIX" = Some (s3_output_key_prefix loc) ∧
    args !! "--S3_MODEL_BUCKET" = Some (s3_model_bucket loc) ∧
    args !! "--S3_MODEL_KEY_PREFIX" = Some (s3_model_key_prefix loc) ∧
    s3_train_data setup
    = "s3://" +:+ s3_output_bucket loc +:+ "/" +:+ s3_output_key_prefix loc +:+ "/train" ∧
    s3_validation_data setup
    = "s3://" +:+ s3_output_bucket loc +:+ "/" +:+ s3_output_key_prefix loc +:+ "/validation" ∧
    EvFit (bt_estimator setup) (data_channels setup) ∈ trace m' ∧
    s3_data <$> data_channels setup !! "train" = Some (s3_train_data setup) ∧
    s3_data <$> data_channels setup !! "validation" = Some (s3_validation_data setup) ∧
    sparkml_data (g_pipeline g)
    = "s3://" +:+ s3_model_bucket loc +:+ "/" +:+ s3_model_key_prefix loc +:+ "/model.tar.gz" ∧
    head (pm_models (sm_model (g_pipeline g)))
    = Some (SparkMLModel (sparkml_data (g_pipeline g)) env).
Proof.
  apply (storage_locations_are_threaded sample_world 2 5 start).
  - exact I.
  - intros k Hk. destruct k as [|[|k]]; [reflexivity | reflexivity | lia].
  - reflexivity.
  - lia.
Defined.

(** * Further properties of the cells *)

(** ** The role name (cell 8) *)

Lemma contains_false_after_last_slash (s : string) :
  Py.contains "/" (Py.after_last_slash s) = false.
Proof.
  induction s as [|c s IH]; [reflexivity|].
  cbn [Py.after_last_slash].
  destruct (Py.contains "/" s) eqn:Hs; [exact IH|].
  destruct (Ascii.eqb c "/") eqn:Hc; [exact Hs|].
  cbn [Py.contains]. rewrite Ascii.eqb_sym, Hc, Hs. reflexivity.
Qed.

Lemma after_last_slash_suffix (s : string) :
  ∃ prefix, s = prefix +:+ Py.after_last_slash s ∧
            (prefix = "" ∨ ∃ p, prefix = p +:+ "/").
Proof.
  induction s as [|c s IH].
  - exists "". split; [reflexivity | left; reflexivity].
  - cbn [Py.after_last_slash].
    destruct (Py.contains "/" s) eqn:Hs.
    + destruct IH as (prefix & Heq & Hprefix).
      exists (String c prefix). split.
      * change (String c prefix +:+ Py.after_last_slash s)
          with (String c (prefix +:+ Py.after_last_slash s)).
        rewrite <- Heq. reflexivity.
      * right. destruct Hprefix as [-> | (p & ->)].
        -- exfalso. change ("" +:+ Py.after_last_slash s) with (Py.after_last_slash s) in Heq.
           rewrite Heq, contains_false_after_last_slash in Hs. discriminate.
        -- exists (String c p). reflexivity.
    + destruct (Ascii.eqb c "/") eqn:Hc.
      * apply Ascii.eqb_eq in Hc. subst c.
        exists "/". split; [reflexivity | right; exists ""; reflexivity].
      * exists "". split; [reflexivity | left; reflexivity].
Qed.

(** X1.  Cell 8 prints the execution role from after its last slash: the
    printed name holds no slash, the role is some prefix followed by that
    name, and the prefix is empty (a role without a slash is printed
    whole) or ends in a slash.  The cell hands on the full role. *)
Theorem cell8_prints_last_segment_of_role (w : world) (m : machine) :
  ∃ name prefix,
    cell8 w m = Done (execution_role w) (after m [EvPrint name]) ∧
    Py.contains "/" name = false ∧
    execution_role w = prefix +:+ name ∧
    (prefix = "" ∨ ∃ p, prefix = p +:+ "/").
Proof.
  destruct (after_last_slash_suffix (execution_role w)) as (prefix & Heq & Hprefix).
  exists (Py.after_last_slash (execution_role w)), prefix.
  split; [reflexivity|].
  split; [apply contains_false_after_last_slash|].
  split; assumption.
Qed.

(** ** Every way out of cell 14 *)


Lemma cell14_missing_message w m response error code :
  create_bucket_raises w = Some (Py.ClientError response) →
  response !! "Error" = Some error →
  error !! "Code" = Some code →
  error !! "Message" = None →
  cell14 w m = Raised (Py.KeyError "Message") (after m [create_call w]).
Proof.
  intros Hraise Herror Hcode Hmessage.
  unfold cell14, mbind, M_bind. rewrite format_bucket_name.
  unfold try_except_ClientError, create_call, after. fold (bucket_name w).
  destruct (String.eqb (region w) "us-east-1");
    unfold create_bucket, subscript, mbind, M_bind, emit;
    rewrite Hraise; simpl; rewrite Herror; simpl; rewrite Hcode, Hmessage; reflexivity.
Qed.


(** X3.  The handler of cell 14 reads the error message before it looks
    at the error code.  So a [ClientError] whose response has a code but
    no message makes the cell raise [KeyError] on Message, whatever the
    code is, the tolerated BucketAlreadyOwnedByYou included; no notice is
    printed and nothing is uploaded. *)
Theorem cell14_needs_the_error_message
    (w : world) (m : machine)
    (response : gmap string (gmap string string)) (error : gmap string string)
    (code : string) :
  create_bucket_raises w = Some (Py.ClientError response) →
  response !! "Error" = Some error →
  error !! "Code" = Some code →
  error !! "Message" = None →
  cell14 w m = Raised (Py.KeyError "Message") (after m [create_call w]) ∧
  prints (trace (after m [create_call w])) = prints (trace m) ∧
  uploads (trace (after m [create_call w])) = uploads (trace m).
Proof.
  intros Hraise Herror Hcode Hmessage.
  split; [apply (cell14_missing_message w m response error code); assumption|].
  unfold after, prints, uploads, create_call. cbn [trace].
  rewrite !flat_map_app. cbn [flat_map]. rewrite !app_nil_r. split; reflexivity.
Qed.

Lemma cell14_needs_the_error_message_witness :
  cell14 terse_world start
  = Raised (Py.KeyError "Message") (after start [create_call terse_world]) ∧
  prints (trace (after start [create_call terse_world])) = prints (trace start) ∧
  uploads (trace (after start [create_call terse_world])) = uploads (trace start).
Proof.
  apply (cell14_needs_the_error_message terse_world start
           {[ "Error" := terse_error ]} terse_error "BucketAlreadyOwnedByYou");
    reflexivity.
Defined.

(** X4.  A failure of [create_bucket] that is not a [ClientError] stops
    the whole notebook in cell 14: the run raises that exception after the
    print of cell 8 and the [create_bucket] call, so nothing is uploaded,
    no Glue call is made and nothing downstream is started. *)
Theorem notebook_stops_when_create_bucket_fails
    (w : world) (fuel : nat) (m : machine) (e : Py.exn) :
  create_bucket_raises w = Some e →
  (∀ response, e ≠ Py.ClientError response) →
  ∃ new,
    notebook w fuel m = Raised e (after m new) ∧
    new = [EvPrint (Py.after_last_slash (execution_role w)); create_call w] ∧
    uploads new = [] ∧ glue_calls new = [] ∧ downstream new = [].
Proof.
  intros Hraise Hother. eexists. split; [|repeat split].
  unfold notebook, submit_job, mbind, M_bind. unfold cell8, mbind, M_bind, print, emit.
  cbv [mret M_ret].
  rewrite (cell14_other_exception w _ e Hraise Hother).
  unfold after. cbn [trace polls clock_reads hosted_models hosted_endpoints].
  rewrite <- app_assoc. reflexivity.
Qed.

Lemma notebook_stops_when_create_bucket_fails_witness :
  ∃ new,
    notebook offline_world 5 start
    = Raised (Py.OtherError "EndpointConnectionError") (after start new) ∧
    new = [EvPrint (Py.after_last_slash (execution_role offline_world));
           create_call offline_world] ∧
    uploads new = [] ∧ glue_calls new = [] ∧ downstream new = [].
Proof.
  apply (notebook_stops_when_create_bucket_fails offline_world 5 start
           (Py.OtherError "EndpointConnectionError")).
  - reflexivity.
  - discriminate.
Defined.

(** ** What the poller prints and how long it sleeps (cell 33) *)

Lemma prints_iterations w job_name job_run_id n : ∀ p,
  prints (flat_map (iteration w job_name job_run_id) (seq p n))
  = map (job_run_state w) (seq p n).
Proof.
  induction n as [|n IH]; intros p; [reflexivity|].
  cbn [seq flat_map map]. unfold prints in *. rewrite flat_map_app, IH. reflexivity.
Qed.

Lemma downstream_iterations w job_name job_run_id n : ∀ p,
  downstream (flat_map (iteration w job_name job_run_id) (seq p n)) = [].
Proof.
  induction n as [|n IH]; intros p; [reflexivity|].
  cbn [seq flat_map]. unfold downstream in *. rewrite List.filter_app, IH. reflexivity.
Qed.

Lemma polled_iterations w job_name job_run_id n : ∀ p,
  polled (flat_map (iteration w job_name job_run_id) (seq p n))
  = repeat (job_name, job_run_id) n.
Proof.
  induction n as [|n IH]; intros p; [reflexivity|].
  cbn [seq flat_map]. unfold polled in *. rewrite flat_map_app, IH. reflexivity.
Qed.

Lemma uploads_iterations w job_name job_run_id n : ∀ p,
  uploads (flat_map (iteration w job_name job_run_id) (seq p n)) = [].
Proof.
  induction n as [|n IH]; intros p; [reflexivity|].
  cbn [seq flat_map]. unfold uploads in *. rewrite flat_map_app, IH. reflexivity.
Qed.

Lemma total_of_equal_sleeps (n : nat) :
  fold_right Z.add 0%Z (repeat 30%Z n) = (30 * Z.of_nat n)%Z.
Proof.
  induction n as [|n IH]; [reflexivity|].
  cbn [repeat fold_right]. rewrite IH. lia.
Qed.

(** X5.  When the first terminal status is the answer to query number
    [n] (counting the query before the loop as number 0), cell 33 makes
    [n + 1] queries, prints the [n] answers read inside the loop and never
    the first one, and sleeps [n] times 30 seconds, [30 * n] seconds in
    all.  A run that is already terminal at the first query returns at
    once with nothing printed and no sleep; otherwise the loop still
    prints the terminal status and sleeps 30 seconds after reading it. *)
Theorem poller_prints_and_sleeps_once_per_iteration
    (w : world) (job_name job_run_id : string) (n fuel : nat) (m : machine) :
  (∀ k, k < n → Py.in_tuple (job_run_state w (polls m + k)) terminal_states = false) →
  Py.in_tuple (job_run_state w (polls m + n)) terminal_states = true →
  n ≤ fuel →
  ∃ body,
    cell33 w fuel job_name job_run_id m
    = Done (job_run_state w (polls m + n))
        (Machine (trace m ++ EvGetJobRun job_name job_run_id :: body)
                 (polls m + S n) (clock_reads m) (hosted_models m) (hosted_endpoints m)) ∧
    length (queries body) = n ∧
    prints body = map (job_run_state w) (seq (S (polls m)) n) ∧
    sleeps body = repeat 30%Z n ∧
    fold_right Z.add 0%Z (sleeps body) = (30 * Z.of_nat n)%Z ∧
    (n = 0 → body = []) ∧
    (0 < n → ∃ before,
        body = before ++ [EvGetJobRun job_name job_run_id;
                          EvPrint (job_run_state w (polls m + n));
                          EvSleep 30]).
Proof.
  intros Hpre Hend Hfuel.
  exists (flat_map (iteration w job_name job_run_id) (seq (S (polls m)) n)).
  split; [apply cell33_reaches; assumption|].
  split; [apply queries_iterations|].
  split; [apply prints_iterations|].
  split; [apply sleeps_iterations|].
  split; [rewrite sleeps_iterations; apply total_of_equal_sleeps|].
  split.
  - intros ->. reflexivity.
  - intros Hn. destruct n as [|n]; [lia|].
    exists (flat_map (iteration w job_name job_run_id) (seq (S (polls m)) n)).
    rewrite seq_S, flat_map_app. cbn [flat_map]. rewrite app_nil_r.
    replace (S (polls m) + n) with (polls m + S n) by lia. reflexivity.
Qed.

Lemma poller_prints_and_sleeps_once_per_iteration_witness :
  ∃ body,
    cell33 sample_world 5 "sparkml-dbpedia" "jr_0001" start
    = Done (job_run_state sample_world (polls start + 2))
        (Machine (trace start ++ EvGetJobRun "sparkml-dbpedia" "jr_0001" :: body)
                 (polls start + 3) (clock_reads start)
                 (hosted_models start) (hosted_endpoints start)) ∧
    length (queries body) = 2 ∧
    prints body = map (job_run_state sample_world) (seq (S (polls start)) 2) ∧
    sleeps body = repeat 30%Z 2 ∧
    fold_right Z.add 0%Z (sleeps body) = (30 * Z.of_nat 2)%Z ∧
    (2 = 0 → body = []) ∧
    (0 < 2 → ∃ before,
        body = before ++ [EvGetJobRun "sparkml-dbpedia" "jr_0001";
                          EvPrint (job_run_state sample_world (polls start + 2));
                          EvSleep 30]).
Proof.
  apply (poller_prints_and_sleeps_once_per_iteration
           sample_world "sparkml-dbpedia" "jr_0001" 2 5 start).
  - intros k Hk. destruct k as [|[|k]]; [reflexivity | reflexivity | lia].
  - reflexivity.
  - lia.
Defined.

(** ** Submission of the Glue job (cells 8 to 30) *)

Lemma cell14_passes_with_notice w m :
  bucket_step_passes w →
  ∃ notice,
    cell14 w m = Done (bucket_name w) (after m (create_call w :: notice ++ dataset_uploads w)) ∧
    (notice = [] ∨ notice = [owned_notice]).
Proof.
  unfold bucket_step_passes. intros Hpass.
  destruct (create_bucket_raises w) as [e|] eqn:Hraise.
  - destruct e as [response| | | |]; try contradiction.
    destruct Hpass as (error & Herror & [code Hcode] & [message Hmessage]).
    rewrite (cell14_client_error w m response error code message) by assumption.
    eexists. split; [reflexivity|].
    destruct (String.eqb code "BucketAlreadyOwnedByYou"); auto.
  - exists []. split; [apply cell14_fresh, Hraise | left; reflexivity].
Qed.

Lemma submit_job_calls w m :
  bucket_step_passes w →
  ∃ notice,
    (notice = [] ∨ notice = [owned_notice]) ∧
    submit_job w m
    = Done (execution_role w, bucket_name w,
            locations_at w (gmtime w (clock_reads m)),
            "sparkml-dbpedia-" +:+ gmtime w (clock_reads m), new_job_run_id w)
        (Machine (trace m ++ submission_calls w (gmtime w (clock_reads m)) notice)
                 (polls m) (S (clock_reads m)) (hosted_models m) (hosted_endpoints m)).
Proof.
  intros Hpass. unfold submit_job, cell8. run_cell.
  match goal with
  | |- context [cell14 w ?m0] =>
      destruct (cell14_passes_with_notice w m0 Hpass) as (notice & Hcell14 & Hnotice)
  end.
  exists notice. split; [exact Hnotice|].
  rewrite Hcell14.
  unfold cell19, cell23, cell25, cell28, cell30, upload_data, strftime_gmtime, after.
  run_cell.
  unfold submission_calls, locations_at. cbn [timestamp_prefix].
  rewrite <- !app_assoc. cbn [app]. rewrite <- !app_assoc. reflexivity.
Qed.

Lemma uploads_notice notice :
  notice = [] ∨ notice = [owned_notice] → uploads notice = [].
Proof. intros [-> | ->]; reflexivity. Qed.

Lemma uploads_submission_calls w ts notice :
  notice = [] ∨ notice = [owned_notice] →
  uploads (submission_calls w ts notice)
  = [("train.csv", bucket_name w, "input/dbpedia");
     ("test.csv", bucket_name w, "input/dbpedia");
     ("dbpedia_processing.py", bucket_name w, "codes");
     ("python.zip", bucket_name w, "dependencies/python");
     ("mleap_spark_assembly.jar", bucket_name w, "dependencies/jar")].
Proof.
  intros Hnotice. unfold submission_calls, uploads.
  rewrite !flat_map_app. fold (uploads notice).
  rewrite (uploads_notice notice Hnotice). reflexivity.
Qed.

(** X6.  The Glue job is given what was uploaded.  When cell 14 lets
    the run through, cells 8 to 30 make five uploads, all into the default
    bucket, then create the job and then start the run; the job
    definition names the script and the two dependencies by the S3 URIs
    of their uploads, and the run's input bucket and key prefix are the
    ones train.csv and test.csv were uploaded under. *)
Theorem glue_job_is_given_what_was_uploaded (w : world) (m : machine) :
  bucket_step_passes w →
  ∃ loc job_name m1 before script jars py_files,
    submit_job w m
    = Done (execution_role w, bucket_name w, loc, job_name, new_job_run_id w) m1 ∧
    trace m1
    = trace m ++ before
      ++ [EvCreateJob job_name (execution_role w) script jars py_files;
          EvPrint job_name;
          EvStartJobRun job_name (job_arguments loc);
          EvPrint (new_job_run_id w)] ∧
    uploads before
    = [("train.csv", s3_input_bucket loc, s3_input_key_prefix loc);
       ("test.csv", s3_input_bucket loc, s3_input_key_prefix loc);
       ("dbpedia_processing.py", bucket_name w, "codes");
       ("python.zip", bucket_name w, "dependencies/python");
       ("mleap_spark_assembly.jar", bucket_name w, "dependencies/jar")] ∧
    s3_input_bucket loc = bucket_name w ∧
    job_arguments loc !! "--S3_INPUT_BUCKET" = Some (s3_input_bucket loc) ∧
    job_arguments loc !! "--S3_INPUT_KEY_PREFIX" = Some (s3_input_key_prefix loc) ∧
    script = "s3://" +:+ bucket_name w +:+ "/codes/dbpedia_processing.py" ∧
    jars = "s3://" +:+ bucket_name w +:+ "/dependencies/jar/mleap_spark_assembly.jar" ∧
    py_files = "s3://" +:+ bucket_name w +:+ "/dependencies/python/python.zip".
Proof.
  intros Hpass.
  destruct (submit_job_calls w m Hpass) as (notice & Hnotice & Hrun).
  eexists _, _, _,
    ([EvPrint (Py.after_last_slash (execution_role w)); create_call w]
     ++ notice ++ dataset_uploads w
     ++ [EvUpload "dbpedia_processing.py" (bucket_name w) "codes";
         EvUpload "python.zip" (bucket_name w) "dependencies/python";
         EvUpload "mleap_spark_assembly.jar" (bucket_name w) "dependencies/jar";
         EvClock]), _, _, _.
  split; [exact Hrun|].
  cbn [trace]. split.
  - unfold submission_calls. rewrite <- !app_assoc. reflexivity.
  - split.
    + unfold uploads. rewrite !flat_map_app. fold (uploads notice).
      rewrite (uploads_notice notice Hnotice). reflexivity.
    + unfold locations_at, job_arguments.
      cbn [s3_input_bucket s3_input_key_prefix].
      split; [reflexivity|].
      split; [apply lookup_insert_eq|].
      split; [rewrite lookup_insert_ne by discriminate; apply lookup_insert_eq|].
      repeat split.
Qed.

Lemma glue_job_is_given_what_was_uploaded_witness :
  ∃ loc job_name m1 before script jars py_files,
    submit_job owned_world start
    = Done (execution_role owned_world, bucket_name owned_world, loc, job_name,
            new_job_run_id owned_world) m1 ∧
    trace m1
    = trace start ++ before
      ++ [EvCreateJob job_name (execution_role owned_world) script jars py_files;
          EvPrint job_name;
          EvStartJobRun job_name (job_arguments loc);
          EvPrint (new_job_run_id owned_world)] ∧
    uploads before
    = [("train.csv", s3_input_bucket loc, s3_input_key_prefix loc);
       ("test.csv", s3_input_bucket loc, s3_input_key_prefix loc);
       ("dbpedia_processing.py", bucket_name owned_world, "codes");
       ("python.zip", bucket_name owned_world, "dependencies/python");
       ("mleap_spark_assembly.jar", bucket_name owned_world, "dependencies/jar")] ∧
    s3_input_bucket loc = bucket_name owned_world ∧
    job_arguments loc !! "--S3_INPUT_BUCKET" = Some (s3_input_bucket loc) ∧
    job_arguments loc !! "--S3_INPUT_KEY_PREFIX" = Some (s3_input_key_prefix loc) ∧
    script = "s3://" +:+ bucket_name owned_world +:+ "/codes/dbpedia_processing.py" ∧
    jars = "s3://" +:+ bucket_name owned_world +:+ "/dependencies/jar/mleap_spark_assembly.jar" ∧
    py_files = "s3://" +:+ bucket_name owned_world +:+ "/dependencies/python/python.zip".
Proof.
  apply (glue_job_is_given_what_was_uploaded owned_world start).
  exists owned_error. repeat split; eexists; reflexivity.
Defined.

(** ** Nothing downstream before the Glue run is over *)

Lemma cell33_keeps_going w job_name job_run_id fuel m :
  (∀ k, Py.in_tuple (job_run_state w (polls m + k)) terminal_states = false) →
  cell33 w fuel job_name job_run_id m
  = Running
      (Machine (trace m ++ EvGetJobRun job_name job_run_id
                  :: flat_map (iteration w job_name job_run_id) (seq (S (polls m)) fuel))
               (polls m + S fuel) (clock_reads m) (hosted_models m) (hosted_endpoints m)).
Proof.
  intros Hall. rewrite cell33_unfold, poll_loop_keeps_going.
  - cbn [polls trace clock_reads hosted_models hosted_endpoints].
    rewrite <- app_assoc, Nat.add_succ_r. reflexivity.
  - intros k. cbn [polls]. rewrite tested_shift with (st := "").
    cbn [tested]. apply Hall.
Qed.

Lemma downstream_submission_calls w ts notice :
  notice = [] ∨ notice = [owned_notice] →
  downstream (submission_calls w ts notice) = [].
Proof.
  intros [-> | ->]; reflexivity.
Qed.

(** X7.  While Glue answers no terminal status the notebook stays in
    cell 33, however long it is followed: the upload and submission calls
    of cells 8 to 30 are made, then one status query per loop iteration
    with a 30-second sleep each, and no training, deployment, request or
    transform is ever started; no model or endpoint is registered. *)
Theorem nothing_downstream_while_the_job_runs (w : world) (m : machine) :
  bucket_step_passes w →
  (∀ k, Py.in_tuple (job_run_state w (polls m + k)) terminal_states = false) →
  ∀ fuel, ∃ new,
    notebook w fuel m
    = Running (Machine (trace m ++ new) (polls m + S fuel) (S (clock_reads m))
                       (hosted_models m) (hosted_endpoints m)) ∧
    downstream new = [] ∧
    length (polled new) = S fuel ∧
    sleeps new = repeat 30%Z fuel.
Proof.
  intros Hpass Hall fuel.
  destruct (submit_job_calls w m Hpass) as (notice & Hnotice & Hrun).
  unfold notebook, mbind, M_bind. rewrite Hrun.
  unfold wait_then_train, mbind, M_bind.
  rewrite cell33_keeps_going by exact Hall.
  cbn [polls trace clock_reads hosted_models hosted_endpoints].
  eexists. split; [rewrite <- app_assoc; reflexivity|].
  unfold downstream, polled, sleeps.
  rewrite List.filter_app, !flat_map_app.
  change (List.filter _ (submission_calls w ?ts notice))
    with (downstream (submission_calls w ts notice)).
  rewrite downstream_submission_calls by assumption.
  cbn [List.filter flat_map app].
  change (List.filter _ (flat_map ?f ?l)) with (downstream (flat_map f l)).
  rewrite downstream_iterations.
  change (flat_map _ (flat_map (iteration w ?j ?r) ?l))
    with (polled (flat_map (iteration w j r) l)) at 1.
  rewrite polled_iterations.
  change (flat_map _ (flat_map (iteration w ?j ?r) ?l))
    with (sleeps (flat_map (iteration w j r) l)).
  rewrite sleeps_iterations.
  split; [reflexivity|].
  destruct Hnotice as [-> | ->]; cbn; rewrite ?length_app, repeat_length; split; reflexivity.
Qed.

Lemma nothing_downstream_while_the_job_runs_witness :
  ∃ new,
    notebook stuck_world 3 start
    = Running (Machine (trace start ++ new) (polls start + 4) (S (clock_reads start))
                       (hosted_models start) (hosted_endpoints start)) ∧
    downstream new = [] ∧
    length (polled new) = 4 ∧
    sleeps new = repeat 30%Z 3.
Proof.
  refine (nothing_downstream_while_the_job_runs stuck_world start _ _ 3).
  - exact I.
  - intros k. reflexivity.
Defined.

(** ** Requests, teardown and batch transform (cells 51 to 64) *)

Lemma serve_and_transform_calls w default_bucket endpoint_name pipeline loc m :
  ∃ p1 b1 p2 b2 t,
    serve_and_transform w default_bucket endpoint_name pipeline loc m
    = Done t
        (Machine
           (trace m ++ [EvPredict p1 b1; EvPrint (invoke_endpoint w p1 b1);
                        EvPredict p2 b2; EvPrint (invoke_endpoint w p2 b2);
                        EvDeleteEndpoint endpoint_name;
                        EvUpload "batch_input_dbpedia.csv" default_bucket "batch";
                        EvTransform t
                          ("s3://" +:+ default_bucket +:+ "/batch/batch_input_dbpedia.csv")
                          CONTENT_TYPE_CSV "Line";
                        EvTransformWait t])
           (polls m) (clock_reads m) (hosted_models m)
           (delete endpoint_name (hosted_endpoints m))) ∧
    pr_endpoint p1 = endpoint_name ∧ pr_content_type p1 = CONTENT_TYPE_CSV ∧
    pr_endpoint p2 = endpoint_name ∧ pr_content_type p2 = CONTENT_TYPE_JSON ∧
    t = Transformer (model_name pipeline) 1 "ml.m4.xlarge" "SingleRecord" "Line"
          ("s3://" +:+ default_bucket +:+ "/batch_output/dbpedia/" +:+ timestamp_prefix loc)
          "serial-inference-batch" CONTENT_TYPE_CSV.
Proof.
  unfold serve_and_transform, cell54, cell56, cell58, cell62, predict,
    delete_endpoint, upload_data.
  run_cell.
  match goal with
  | |- context [cell64 ?b ?n ?l ?m0] => destruct (cell64_done b n l m0) as (t & Ht & Heq)
  end.
  rewrite Ht. unfold after. run_cell. rewrite <- !app_assoc.
  eexists _, _, _, _, t. split; [reflexivity|].
  subst t. repeat split.
Qed.

(** X8.  The transform job reads the very object cell 62 uploaded: the
    input path cell 64 puts together anew equals the S3 URI that
    [upload_data] answered in cell 62 (and that the notebook never uses),
    in whatever bucket.  The transformer names the model it was given,
    asks for CSV and writes under batch_output/dbpedia/ followed by the
    timestamp prefix in the same bucket. *)
Theorem transform_reads_the_uploaded_batch_file
    (default_bucket model_name : string) (loc : locations) (m : machine) :
  ∃ batch_input_loc m1 t m2,
    cell62 default_bucket m = Done batch_input_loc m1 ∧
    cell64 default_bucket model_name loc m1 = Done t m2 ∧
    trace m2
    = trace m ++ [EvUpload "batch_input_dbpedia.csv" default_bucket "batch";
                  EvTransform t batch_input_loc CONTENT_TYPE_CSV "Line";
                  EvTransformWait t] ∧
    tr_model_name t = model_name ∧
    tr_accept t = CONTENT_TYPE_CSV ∧
    tr_output_path t
    = "s3://" +:+ default_bucket +:+ "/batch_output/dbpedia/" +:+ timestamp_prefix loc.
Proof.
  destruct (cell64_done default_bucket model_name loc
              (after m [EvUpload "batch_input_dbpedia.csv" default_bucket "batch"]))
    as (t & Ht & Heq).
  exists ("s3://" +:+ default_bucket +:+ "/" +:+ "batch" +:+ "/" +:+ "batch_input_dbpedia.csv"),
    (after m [EvUpload "batch_input_dbpedia.csv" default_bucket "batch"]), t.
  eexists. split; [reflexivity|]. split; [exact Ht|].
  subst t. unfold after. cbn [trace tr_model_name tr_accept tr_output_path].
  rewrite <- app_assoc. repeat split.
Qed.

(** X9.  The endpoint lives from cell 51 to cell 58.  Deployment binds
    the endpoint name to the pipeline model's name; the two requests, the
    first with content type CSV and the second JSON, both go to that
    endpoint, after the deployment and before [delete_endpoint]; once the
    segment is over the endpoint name is bound to nothing, while the model
    itself is still registered under its name for the transform job. *)
Theorem endpoint_serves_two_requests_then_is_deleted
    (w : world) (role default_bucket training_image bt_model_data : string)
    (loc : locations) (m : machine) :
  ∃ p endpoint_name m1 t m2 before p1 b1 p2 b2 rest,
    assemble_and_deploy role training_image bt_model_data loc m
    = Done (p, endpoint_name) m1 ∧
    serve_and_transform w default_bucket endpoint_name p loc m1 = Done t m2 ∧
    trace m1 = before ++ [EvDeploy (sm_model p) 1 "ml.c4.xlarge" endpoint_name] ∧
    trace m2 = trace m1 ++ [EvPredict p1 b1; EvPrint (invoke_endpoint w p1 b1);
                            EvPredict p2 b2; EvPrint (invoke_endpoint w p2 b2);
                            EvDeleteEndpoint endpoint_name] ++ rest ∧
    pr_endpoint p1 = endpoint_name ∧ pr_content_type p1 = CONTENT_TYPE_CSV ∧
    pr_endpoint p2 = endpoint_name ∧ pr_content_type p2 = CONTENT_TYPE_JSON ∧
    downstream rest = [EvTransform t ("s3://" +:+ default_bucket +:+ "/batch/batch_input_dbpedia.csv")
                         CONTENT_TYPE_CSV "Line"] ∧
    hosted_endpoints m1 !! endpoint_name = Some (pm_name (sm_model p)) ∧
    hosted_endpoints m2 !! endpoint_name = None ∧
    hosted_models m2 !! pm_name (sm_model p) = Some (pm_models (sm_model p)) ∧
    tr_model_name t = pm_name (sm_model p).
Proof.
  destruct (cell49_pure role training_image bt_model_data (Py.dumps schema) loc)
    as (p & Hp & _ & _ & _ & _ & Hsm).
  pose proof (assemble_and_deploy_done role training_image bt_model_data loc m p Hp)
    as Hdeploy.
  match type of Hdeploy with _ = Done (_, ?ep) ?m1 =>
    destruct (serve_and_transform_calls w default_bucket ep p loc m1)
      as (p1 & b1 & p2 & b2 & t & Hrun & Hp1 & Hc1 & Hp2 & Hc2 & Ht)
  end.
  eexists p, _, _, t, _, (trace m ++ [EvPrint (Py.dumps schema)]), p1, b1, p2, b2, _.
  split; [exact Hdeploy|]. split; [exact Hrun|].
  cbn [trace hosted_endpoints hosted_models].
  split; [rewrite <- app_assoc; reflexivity|].
  split; [reflexivity|].
  repeat (split; [assumption|]).
  split; [reflexivity|].
  split; [apply lookup_insert_eq|].
  split; [apply lookup_delete_eq|].
  split; [apply lookup_insert_eq|].
  subst t. rewrite Hsm. reflexivity.
Qed.

(** ** A complete run, call by call *)

Lemma notebook_calls w n fuel m :
  bucket_step_passes w →
  (∀ k, k < n → Py.in_tuple (job_run_state w (polls m + k)) terminal_states = false) →
  Py.in_tuple (job_run_state w (polls m + n)) terminal_states = true →
  n ≤ fuel →
  ∃ notice setup p p1 b1 p2 b2 t,
    (notice = [] ∨ notice = [owned_notice]) ∧
    notebook w fuel m
    = Done (Globals (execution_role w) (bucket_name w)
              (locations_at w (gmtime w (clock_reads m)))
              ("sparkml-dbpedia-" +:+ gmtime w (clock_reads m))
              (new_job_run_id w) (job_run_state w (polls m + n)) setup p
              ("inference-pipeline-ep-" +:+ gmtime w (clock_reads m)) t)
        (Machine
           (trace m
            ++ submission_calls w (gmtime w (clock_reads m)) notice
            ++ (EvGetJobRun ("sparkml-dbpedia-" +:+ gmtime w (clock_reads m)) (new_job_run_id w)
                :: flat_map (iteration w ("sparkml-dbpedia-" +:+ gmtime w (clock_reads m))
                               (new_job_run_id w))
                     (seq (S (polls m)) n))
            ++ [EvPrint (get_image_uri w (region w) "blazingtext" "latest");
                EvFit (bt_estimator setup) (data_channels setup);
                EvPrint (Py.dumps schema);
                EvDeploy (sm_model p) 1 "ml.c4.xlarge"
                  ("inference-pipeline-ep-" +:+ gmtime w (clock_reads m));
                EvPredict p1 b1; EvPrint (invoke_endpoint w p1 b1);
                EvPredict p2 b2; EvPrint (invoke_endpoint w p2 b2);
                EvDeleteEndpoint ("inference-pipeline-ep-" +:+ gmtime w (clock_reads m));
                EvUpload "batch_input_dbpedia.csv" (bucket_name w) "batch";
                EvTransform t
                  ("s3://" +:+ bucket_name w +:+ "/batch/batch_input_dbpedia.csv")
                  CONTENT_TYPE_CSV "Line";
                EvTransformWait t])
           (polls m + S n) (S (clock_reads m))
           (<[pm_name (sm_model p) := pm_models (sm_model p)]> (hosted_models m))
           (delete ("inference-pipeline-ep-" +:+ gmtime w (clock_reads m))
              (<["inference-pipeline-ep-" +:+ gmtime w (clock_reads m) := pm_name (sm_model p)]>
                 (hosted_endpoints m)))) ∧
    model_name p = "inference-pipeline-" +:+ gmtime w (clock_reads m) ∧
    pm_name (sm_model p) = model_name p ∧
    tr_model_name t = model_name p ∧
    pr_content_type p1 = CONTENT_TYPE_CSV ∧
    pr_content_type p2 = CONTENT_TYPE_JSON.
Proof.
  intros Hpass Hpre Hend Hfuel.
  destruct (submit_job_calls w m Hpass) as (notice & Hnotice & Hsubmit).
  set (ts := gmtime w (clock_reads m)) in *.
  destruct (cell39_pure (execution_role w)
              (get_image_uri w (region w) "blazingtext" "latest") (locations_at w ts))
    as (setup & Hsetup & _).
  destruct (cell49_pure (execution_role w)
              (get_image_uri w (region w) "blazingtext" "latest")
              (fitted_model_data w) (Py.dumps schema) (locations_at w ts))
    as (p & Hp & _ & _ & _ & Hname & Hsm).
  unfold notebook, mbind, M_bind. rewrite Hsubmit.
  rewrite (wait_then_train_done w (execution_role w) ("sparkml-dbpedia-" +:+ ts)
             (new_job_run_id w) (locations_at w ts) n fuel _ setup)
    by (cbn [polls]; assumption).
  rewrite (assemble_and_deploy_done _ _ _ _ _ p Hp).
  cbn [trace polls clock_reads hosted_models hosted_endpoints timestamp_prefix locations_at].
  match goal with
  | |- context [serve_and_transform w ?b ?ep ?pp ?l ?m0] =>
      destruct (serve_and_transform_calls w b ep pp l m0)
        as (p1 & b1 & p2 & b2 & t & Hserve & _ & Hc1 & _ & Hc2 & Ht)
  end.
  rewrite Hserve.
  cbn [trace polls clock_reads hosted_models hosted_endpoints mret M_ret timestamp_prefix
         locations_at].
  exists notice, setup, p, p1, b1, p2, b2, t.
  split; [exact Hnotice|].
  split.
  - unfold mret, M_ret.
    rewrite <- !app_assoc. cbn [app]. rewrite <- !app_assoc. cbn [app]. reflexivity.
  - split; [exact Hname|]. split; [rewrite Hsm; reflexivity|].
    split; [subst t; reflexivity|]. split; assumption.
Qed.

Lemma polled_submission_calls w ts notice :
  notice = [] ∨ notice = [owned_notice] →
  polled (submission_calls w ts notice) = [].
Proof. intros [-> | ->]; reflexivity. Qed.

(** X10.  A complete run uploads six files and every one of them goes
    into the default bucket, aws-glue-, the account, a dash and the
    region: the two dataset files under input/dbpedia, the script under
    codes, the two dependencies under dependencies/, all before the poll
    loop, and the batch input under batch. *)
Theorem every_upload_goes_to_the_default_bucket
    (w : world) (n fuel : nat) (m : machine) :
  bucket_step_passes w →
  (∀ k, k < n → Py.in_tuple (job_run_state w (polls m + k)) terminal_states = false) →
  Py.in_tuple (job_run_state w (polls m + n)) terminal_states = true →
  n ≤ fuel →
  ∃ g m' new,
    notebook w fuel m = Done g m' ∧
    trace m' = trace m ++ new ∧
    g_default_bucket g = "aws-glue-" +:+ account w +:+ "-" +:+ region w ∧
    uploads new
    = [("train.csv", g_default_bucket g, "input/dbpedia");
       ("test.csv", g_default_bucket g, "input/dbpedia");
       ("dbpedia_processing.py", g_default_bucket g, "codes");
       ("python.zip", g_default_bucket g, "dependencies/python");
       ("mleap_spark_assembly.jar", g_default_bucket g, "dependencies/jar");
       ("batch_input_dbpedia.csv", g_default_bucket g, "batch")].
Proof.
  intros Hpass Hpre Hend Hfuel.
  destruct (notebook_calls w n fuel m Hpass Hpre Hend Hfuel)
    as (notice & setup & p & p1 & b1 & p2 & b2 & t & Hnotice & Hrun & _).
  eexists _, _, _. split; [exact Hrun|].
  cbn [trace g_default_bucket]. split; [reflexivity|]. split; [reflexivity|].
  unfold uploads. rewrite !flat_map_app.
  fold (uploads (submission_calls w (gmtime w (clock_reads m)) notice)).
  rewrite uploads_submission_calls by assumption.
  cbn [flat_map app].
  match goal with
  | |- context [flat_map ?f (flat_map (iteration w ?j ?r) ?l)] =>
      change (flat_map f (flat_map (iteration w j r) l))
        with (uploads (flat_map (iteration w j r) l))
  end.
  rewrite uploads_iterations. reflexivity.
Qed.

Lemma every_upload_goes_to_the_default_bucket_witness :
  ∃ g m' new,
    notebook owned_world 5 start = Done g m' ∧
    trace m' = trace start ++ new ∧
    g_default_bucket g = "aws-glue-" +:+ account owned_world +:+ "-" +:+ region owned_world ∧
    uploads new
    = [("train.csv", g_default_bucket g, "input/dbpedia");
       ("test.csv", g_default_bucket g, "input/dbpedia");
       ("dbpedia_processing.py", g_default_bucket g, "codes");
       ("python.zip", g_default_bucket g, "dependencies/python");
       ("mleap_spark_assembly.jar", g_default_bucket g, "dependencies/jar");
       ("batch_input_dbpedia.csv", g_default_bucket g, "batch")].
Proof.
  apply (every_upload_goes_to_the_default_bucket owned_world 2 5 start).
  - exists owned_error. repeat split; eexists; reflexivity.
  - intros k Hk. destruct k as [|[|k]]; [reflexivity | reflexivity | lia].
  - reflexivity.
  - lia.
Defined.

(** X11.  Every status query of a complete run asks about the job that
    cell 28 created and the run that cell 30 started: with the first
    terminal answer at query number [n] there are [n + 1] queries, each
    with the job name given to [start_job_run] and the run id it
    answered. *)
Theorem status_queries_name_the_started_run
    (w : world) (n fuel : nat) (m : machine) :
  bucket_step_passes w →
  (∀ k, k < n → Py.in_tuple (job_run_state w (polls m + k)) terminal_states = false) →
  Py.in_tuple (job_run_state w (polls m + n)) terminal_states = true →
  n ≤ fuel →
  ∃ g m' new,
    notebook w fuel m = Done g m' ∧
    trace m' = trace m ++ new ∧
    EvStartJobRun (g_job_name g) (job_arguments (g_locations g)) ∈ new ∧
    g_job_run_id g = new_job_run_id w ∧
    polled new = repeat (g_job_name g, g_job_run_id g) (S n).
Proof.
  intros Hpass Hpre Hend Hfuel.
  destruct (notebook_calls w n fuel m Hpass Hpre Hend Hfuel)
    as (notice & setup & p & p1 & b1 & p2 & b2 & t & Hnotice & Hrun & _).
  eexists _, _, _. split; [exact Hrun|].
  cbn [trace g_job_name g_job_run_id g_locations]. split; [reflexivity|].
  split.
  - apply elem_of_app. left. unfold submission_calls.
    destruct Hnotice as [-> | ->]; in_trace.
  - split; [reflexivity|].
    unfold polled. rewrite !flat_map_app.
    fold (polled (submission_calls w (gmtime w (clock_reads m)) notice)).
    rewrite polled_submission_calls by assumption.
    cbn [flat_map app]. rewrite app_nil_r.
    match goal with
    | |- context [flat_map ?f (flat_map (iteration w ?j ?r) ?l)] =>
        change (flat_map f (flat_map (iteration w j r) l))
          with (polled (flat_map (iteration w j r) l))
    end.
    rewrite polled_iterations. reflexivity.
Qed.

Lemma status_queries_name_the_started_run_witness :
  ∃ g m' new,
    notebook sample_world 5 start = Done g m' ∧
    trace m' = trace start ++ new ∧
    EvStartJobRun (g_job_name g) (job_arguments (g_locations g)) ∈ new ∧
    g_job_run_id g = new_job_run_id sample_world ∧
    polled new = repeat (g_job_name g, g_job_run_id g) 3.
Proof.
  apply (status_queries_name_the_started_run sample_world 2 5 start).
  - exact I.
  - intros k Hk. destruct k as [|[|k]]; [reflexivity | reflexivity | lia].
  - reflexivity.
  - lia.
Defined.

Lemma downstream_upstream_calls w ts notice job_name job_run_id p n :
  notice = [] ∨ notice = [owned_notice] →
  downstream (submission_calls w ts notice
              ++ EvGetJobRun job_name job_run_id
                 :: flat_map (iteration w job_name job_run_id) (seq p n)) = [].
Proof.
  intros Hnotice. unfold downstream. rewrite List.filter_app.
  fold (downstream (submission_calls w ts notice)).
  rewrite downstream_submission_calls by assumption.
  cbn [List.filter app].
  apply downstream_iterations.
Qed.

(** X12.  A complete run falls into two phases.  Up to the last status
    query nothing downstream is started; from then on no call goes to
    Glue any more, and the downstream calls come in this order: the fit,
    the deployment, the CSV request, the JSON request, and the batch
    transform, the transform after the endpoint has been deleted. *)
Theorem downstream_work_follows_the_last_status_query
    (w : world) (n fuel : nat) (m : machine) :
  bucket_step_passes w →
  (∀ k, k < n → Py.in_tuple (job_run_state w (polls m + k)) terminal_states = false) →
  Py.in_tuple (job_run_state w (polls m + n)) terminal_states = true →
  n ≤ fuel →
  ∃ g m' upstream rest p1 b1 p2 b2 data,
    notebook w fuel m = Done g m' ∧
    trace m' = trace m ++ upstream ++ rest ∧
    downstream upstream = [] ∧
    length (polled upstream) = S n ∧
    glue_calls rest = [] ∧
    downstream rest
    = [EvFit (bt_estimator (g_training g)) (data_channels (g_training g));
       EvDeploy (sm_model (g_pipeline g)) 1 "ml.c4.xlarge" (g_endpoint_name g);
       EvPredict p1 b1; EvPredict p2 b2;
       EvTransform (g_transformer g) data CONTENT_TYPE_CSV "Line"] ∧
    pr_content_type p1 = CONTENT_TYPE_CSV ∧
    pr_content_type p2 = CONTENT_TYPE_JSON ∧
    ∃ served later,
      rest = served ++ EvDeleteEndpoint (g_endpoint_name g) :: later ∧
      downstream later = [EvTransform (g_transformer g) data CONTENT_TYPE_CSV "Line"].
Proof.
  intros Hpass Hpre Hend Hfuel.
  destruct (notebook_calls w n fuel m Hpass Hpre Hend Hfuel)
    as (notice & setup & p & p1 & b1 & p2 & b2 & t & Hnotice & Hrun & _ & _ & _ & Hc1 & Hc2).
  eexists _, _,
    (submission_calls w (gmtime w (clock_reads m)) notice
     ++ EvGetJobRun _ _ :: flat_map (iteration w _ _) (seq (S (polls m)) n)),
    _, p1, b1, p2, b2, _.
  split; [exact Hrun|].
  cbn [trace g_training g_pipeline g_endpoint_name g_transformer].
  split; [rewrite <- !app_assoc; reflexivity|].
  split; [apply downstream_upstream_calls; assumption|].
  split.
  - unfold polled. rewrite flat_map_app.
    fold (polled (submission_calls w (gmtime w (clock_reads m)) notice)).
    rewrite polled_submission_calls by assumption.
    cbn [flat_map app].
    match goal with
    | |- context [flat_map ?f (flat_map (iteration w ?j ?r) ?l)] =>
        change (flat_map f (flat_map (iteration w j r) l))
          with (polled (flat_map (iteration w j r) l))
    end.
    rewrite polled_iterations. cbn [length]. rewrite repeat_length. reflexivity.
  - split; [reflexivity|]. split; [reflexivity|].
    split; [exact Hc1|]. split; [exact Hc2|].
    eexists [_; _; _; _; _; _; _; _], _. split; reflexivity.
Qed.

Lemma downstream_work_follows_the_last_status_query_witness :
  ∃ g m' upstream rest p1 b1 p2 b2 data,
    notebook sample_world 5 start = Done g m' ∧
    trace m' = trace start ++ upstream ++ rest ∧
    downstream upstream = [] ∧
    length (polled upstream) = 3 ∧
    glue_calls rest = [] ∧
    downstream rest
    = [EvFit (bt_estimator (g_training g)) (data_channels (g_training g));
       EvDeploy (sm_model (g_pipeline g)) 1 "ml.c4.xlarge" (g_endpoint_name g);
       EvPredict p1 b1; EvPredict p2 b2;
       EvTransform (g_transformer g) data CONTENT_TYPE_CSV "Line"] ∧
    pr_content_type p1 = CONTENT_TYPE_CSV ∧
    pr_content_type p2 = CONTENT_TYPE_JSON ∧
    ∃ served later,
      rest = served ++ EvDeleteEndpoint (g_endpoint_name g) :: later ∧
      downstream later = [EvTransform (g_transformer g) data CONTENT_TYPE_CSV "Line"].
Proof.
  apply (downstream_work_follows_the_last_status_query sample_world 2 5 start).
  - exact I.
  - intros k Hk. destruct k as [|[|k]]; [reflexivity | reflexivity | lia].
  - reflexivity.
  - lia.
Defined.

(** ** Names and prefixes from the timestamp *)

Lemma length_append (s t : string) :
  String.length (s +:+ t) = String.length s + String.length t.
Proof.
  induction s as [|c s IH]; [reflexivity|].
  change (String c s +:+ t) with (String c (s +:+ t)).
  cbn [String.length]. rewrite IH. reflexivity.
Qed.

Lemma append_cancel_r (t : string) : ∀ s1 s2, s1 +:+ t = s2 +:+ t → s1 = s2.
Proof.
  induction s1 as [|c1 s1 IH]; intros [|c2 s2] Heq.
  - reflexivity.
  - apply (f_equal String.length) in Heq.
    change ("" +:+ t) with t in Heq. rewrite length_append in Heq.
    cbn [String.length] in Heq. lia.
  - apply (f_equal String.length) in Heq.
    change ("" +:+ t) with t in Heq. rewrite length_append in Heq.
    cbn [String.length] in Heq. lia.
  - change (String c1 (s1 +:+ t) = String c2 (s2 +:+ t)) in Heq.
    injection Heq as -> Heq. f_equal. apply IH, Heq.
Qed.

(** X13.  Everything a run names carries the timestamp read in cell 25
    and nothing else that varies.  Two complete runs whose timestamps
    differ share no Glue job name, no model name, no endpoint name, no
    output prefix and no model prefix; two runs with the same timestamp
    get the same three names.  The input prefix is input/dbpedia for
    every run. *)
Theorem names_differ_exactly_when_timestamps_differ
    (w1 w2 : world) (n1 n2 fuel1 fuel2 : nat) (m1 m2 : machine) :
  bucket_step_passes w1 →
  (∀ k, k < n1 → Py.in_tuple (job_run_state w1 (polls m1 + k)) terminal_states = false) →
  Py.in_tuple (job_run_state w1 (polls m1 + n1)) terminal_states = true →
  n1 ≤ fuel1 →
  bucket_step_passes w2 →
  (∀ k, k < n2 → Py.in_tuple (job_run_state w2 (polls m2 + k)) terminal_states = false) →
  Py.in_tuple (job_run_state w2 (polls m2 + n2)) terminal_states = true →
  n2 ≤ fuel2 →
  ∃ g1 m1' g2 m2',
    notebook w1 fuel1 m1 = Done g1 m1' ∧
    notebook w2 fuel2 m2 = Done g2 m2' ∧
    timestamp_prefix (g_locations g1) = gmtime w1 (clock_reads m1) ∧
    timestamp_prefix (g_locations g2) = gmtime w2 (clock_reads m2) ∧
    (timestamp_prefix (g_locations g1) ≠ timestamp_prefix (g_locations g2) →
       g_job_name g1 ≠ g_job_name g2 ∧
       model_name (g_pipeline g1) ≠ model_name (g_pipeline g2) ∧
       g_endpoint_name g1 ≠ g_endpoint_name g2 ∧
       s3_output_key_prefix (g_locations g1) ≠ s3_output_key_prefix (g_locations g2) ∧
       s3_model_key_prefix (g_locations g1) ≠ s3_model_key_prefix (g_locations g2)) ∧
    (timestamp_prefix (g_locations g1) = timestamp_prefix (g_locations g2) →
       g_job_name g1 = g_job_name g2 ∧
       model_name (g_pipeline g1) = model_name (g_pipeline g2) ∧
       g_endpoint_name g1 = g_endpoint_name g2) ∧
    s3_input_key_prefix (g_locations g1) = "input/dbpedia" ∧
    s3_input_key_prefix (g_locations g2) = "input/dbpedia".
Proof.
  intros Hpass1 Hpre1 Hend1 Hfuel1 Hpass2 Hpre2 Hend2 Hfuel2.
  destruct (notebook_calls w1 n1 fuel1 m1 Hpass1 Hpre1 Hend1 Hfuel1)
    as (? & ? & p1 & ? & ? & ? & ? & ? & _ & Hrun1 & Hname1 & _).
  destruct (notebook_calls w2 n2 fuel2 m2 Hpass2 Hpre2 Hend2 Hfuel2)
    as (? & ? & p2 & ? & ? & ? & ? & ? & _ & Hrun2 & Hname2 & _).
  eexists _, _, _, _. split; [exact Hrun1|]. split; [exact Hrun2|].
  cbn [g_locations g_job_name g_pipeline g_endpoint_name locations_at
         timestamp_prefix s3_output_key_prefix s3_model_key_prefix s3_input_key_prefix].
  rewrite Hname1, Hname2.
  split; [reflexivity|]. split; [reflexivity|].
  split; [|split; [|split; reflexivity]].
  - intros Hne. repeat split; intros Heq; apply Hne.
    + exact (String.app_inj _ _ _ Heq).
    + exact (String.app_inj _ _ _ Heq).
    + exact (String.app_inj _ _ _ Heq).
    + exact (append_cancel_r _ _ _ Heq).
    + exact (append_cancel_r _ _ _ (append_cancel_r _ _ _ Heq)).
  - intros ->. repeat split.
Qed.

Lemma names_differ_exactly_when_timestamps_differ_witness :
  ∃ g1 m1' g2 m2',
    notebook sample_world 5 start = Done g1 m1' ∧
    notebook later_world 5 start = Done g2 m2' ∧
    timestamp_prefix (g_locations g1) = gmtime sample_world (clock_reads start) ∧
    timestamp_prefix (g_locations g2) = gmtime later_world (clock_reads start) ∧
    (timestamp_prefix (g_locations g1) ≠ timestamp_prefix (g_locations g2) →
       g_job_name g1 ≠ g_job_name g2 ∧
       model_name (g_pipeline g1) ≠ model_name (g_pipeline g2) ∧
       g_endpoint_name g1 ≠ g_endpoint_name g2 ∧
       s3_output_key_prefix (g_locations g1) ≠ s3_output_key_prefix (g_locations g2) ∧
       s3_model_key_prefix (g_locations g1) ≠ s3_model_key_prefix (g_locations g2)) ∧
    (timestamp_prefix (g_locations g1) = timestamp_prefix (g_locations g2) →
       g_job_name g1 = g_job_name g2 ∧
       model_name (g_pipeline g1) = model_name (g_pipeline g2) ∧
       g_endpoint_name g1 = g_endpoint_name g2) ∧
    s3_input_key_prefix (g_locations g1) = "input/dbpedia" ∧
    s3_input_key_prefix (g_locations g2) = "input/dbpedia".
Proof.
  apply (names_differ_exactly_when_timestamps_differ
           sample_world later_world 2 2 5 5 start start).
  - exact I.
  - intros k Hk. destruct k as [|[|k]]; [reflexivity | reflexivity | lia].
  - reflexivity.
  - lia.
  - exact I.
  - intros k Hk. destruct k as [|[|k]]; [reflexivity | reflexivity | lia].
  - reflexivity.
  - lia.
Defined.
